(** * pipeline_runner: the execution engine

    A shallow embedding of [pipeline_runner/__init__.py] (pipeline driver,
    step runner, parallel step runner, runner factory) and of
    [pipeline_runner/cache.py] (cache manager), together with the
    properties of the engine that its specification states.

    The engine drives external collaborators (container runner, services
    manager, artifact manager, git and path helpers, the logger, the uuid
    generator).  Every call that crosses that boundary is recorded in a
    trace of events, and its answer is given by an environment that sees
    the trace recorded so far.  The local file system holding the cache
    archives is part of the state.  Python exceptions are a second kind of
    result; the state survives them, which is what [try ... finally]
    needs. *)

From Stdlib Require Import ZArith String Ascii.
From Stdlib.Strings Require Import Byte.
From stdpp Require Import base gmap strings list pretty.

Open Scope Z_scope.

(** ** Python values used by the engine *)

Abbreviation bytes := (list byte).

(** Exceptions.  [ValueError] and the bare [Exception] are the two the
    engine raises itself; [TypeError] and [AttributeError] are what
    Python raises on a failed unpacking or on a method call on [None];
    [ExternalError] stands for whatever a collaborator may raise. *)
Inductive exn :=
| ValueError (msg : string)
| PyException (msg : string)
| TypeError (msg : string)
| AttributeError (msg : string)
| ExternalError (tag : string).

(** Result of a call: a value or a raised exception. *)
Inductive Res (A : Type) :=
| Ok (a : A)
| Raise (e : exn).
Arguments Ok {A} a.
Arguments Raise {A} e.

(** ** Data model (the fields of [models] that the engine reads) *)

Record Image := { image_name : string }.

Record CloneSettings := {
  depth : option Z;
  lfs : option bool;
  enabled : option bool
}.

Record Cache := { path : string }.

Record Service := { service_image : string }.

Record Step := {
  name : string;
  script : list string;
  after_script : list string;
  image : option Image;
  clone_settings : CloneSettings;
  size : Z;
  services : list string;
  caches : list string;
  artifacts : list string
}.

(** A runnable node: [Step] or [ParallelStep] ([Union[Step, ParallelStep]]
    in the source; the factory dispatches on [isinstance]). *)
Unset Elimination Schemes.
Inductive Node :=
| StepNode (s : Step)
| ParallelNode (pname : string) (steps : list Node).
Set Elimination Schemes.

(** [Pipelines]: the parsed definitions. *)
Record Pipelines := {
  def_image : option Image;
  def_clone_settings : CloneSettings;
  def_services : gmap string Service;
  def_caches : gmap string Cache
}.

(** [config]: the global configuration object. *)
Record Config := {
  project_slug : string;
  selected_steps : list string;
  default_image : string;
  build_container_base_memory_limit : Z;
  remote_workspace_dir : string
}.

(** Collaborator objects are the record of their constructor arguments. *)
Record ServicesManager := {
  sm_services : list string;
  sm_definitions : gmap string Service;
  sm_size : Z;
  sm_data_volume_name : string
}.

Record ContainerRunner := {
  cr_image : Image;
  cr_name : string;
  cr_mem_limit : Z;
  cr_services_names : list string;
  cr_data_volume_name : string
}.

(** A command given to [run_command]: an argv list ([_clone_repository])
    or one shell string ([_upload_cache]). *)
Inductive Command :=
| CmdArgv (argv : list string)
| CmdShell (cmd : string).

(** What [run_command] hands back.  [cache.py] unpacks it as a pair
    [(res, output)], [__init__.py] tests it as a status; both shapes are
    kept, with Python's truth value and unpacking for each. *)
Inductive CommandResult :=
| ResCode (code : Z)
| ResPair (code : Z) (output : bytes).

Definition exit_code_of (r : CommandResult) : Z :=
  match r with ResCode c => c | ResPair c _ => c end.

(** [if r:] -- an int is true when non-zero, a 2-tuple always. *)
Definition command_truthy (r : CommandResult) : bool :=
  match r with
  | ResCode c => negb (c =? 0)
  | ResPair _ _ => true
  end.

(** [res, output = r] *)
Definition command_unpack (r : CommandResult) : Res (Z * bytes) :=
  match r with
  | ResPair c out => Ok (c, out)
  | ResCode _ => Raise (TypeError "cannot unpack non-iterable int object")
  end.

(** The archive stream of [get_archive]: a lazy sequence of chunks that
    ends, or raises after the chunks it has produced. *)
Record Archive := {
  chunks : list bytes;
  stream_error : option exn
}.

(** ** Events *)

Inductive Level := DEBUG | INFO | WARNING | ERROR.

Inductive LogArg :=
| AStr (s : string)
| AInt (z : Z)
| ABytes (b : bytes)
| ASize (n : Z)      (* utils.get_human_readable_size(n) *)
| AElapsed.          (* a duration, ts() - s *)

Inductive Event :=
| EvLog (lvl : Level) (fmt : string) (args : list LogArg)
| EvUuid4
| EvStartServices (sm : ServicesManager)
| EvGetServicesNames (sm : ServicesManager)
| EvStopServices (sm : ServicesManager)
| EvContainerStart (cr : ContainerRunner)
| EvContainerStop (cr : ContainerRunner)
| EvRunScript (cr : ContainerRunner) (commands : list string)
              (env : option (list (string * Z)))
| EvRunCommand (cr : ContainerRunner) (cmd : Command)
| EvPutArchive (cr : ContainerRunner) (dir : string) (data : bytes)
| EvGetArchive (cr : ContainerRunner) (dir : string)
| EvExpandPath (cr : ContainerRunner) (p : string)
| EvArtifactUpload (cr : ContainerRunner) (pipeline_uuid step_uuid : string)
| EvArtifactDownload (cr : ContainerRunner) (pipeline_uuid step_uuid : string)
                     (patterns : list string)
| EvGitCurrentBranch
| EvLocalCacheDirectory
| EvOpen (file : string) (mode : string).

(** ** The environment: what the collaborators answer

    Each answer may depend on the arguments and on every event recorded
    before the call. *)
Record Env := {
  uuid4 : list Event -> string;
  slugify : string -> string;
  start_services : ServicesManager -> list Event -> Res unit;
  get_services_names : ServicesManager -> list Event -> Res (list string);
  stop_services : ServicesManager -> list Event -> Res unit;
  container_start : ContainerRunner -> list Event -> Res unit;
  container_stop : ContainerRunner -> list Event -> Res unit;
  run_script : ContainerRunner -> list string -> option (list (string * Z)) ->
               list Event -> Res Z;
  run_command : ContainerRunner -> Command -> list Event -> Res CommandResult;
  put_archive : ContainerRunner -> string -> bytes -> list Event -> Res bool;
  get_archive : ContainerRunner -> string -> list Event -> Res Archive;
  expand_path : ContainerRunner -> string -> list Event -> Res string;
  artifact_upload : ContainerRunner -> string -> string -> list Event -> Res unit;
  artifact_download : ContainerRunner -> string -> string -> list string ->
                      list Event -> Res unit;
  get_git_current_branch : list Event -> Res string;
  get_local_cache_directory : list Event -> Res string
}.

(** ** State and the engine monad *)

(** [self_services_manager] and [self_container_runner] are the two
    mutable fields of the [StepRunner] under execution.  A runner is built
    by the factory for one [run()] and never shared, so one slot per field
    is enough; [StepRunner.__init__] resets both to [None]. *)
Record State := {
  trace : list Event;
  fs : gmap string bytes;
  self_services_manager : option ServicesManager;
  self_container_runner : option ContainerRunner
}.

Definition M (A : Type) := State -> Res A * State.

Definition ret {A} (a : A) : M A := fun st => (Ok a, st).

Definition raise {A} (e : exn) : M A := fun st => (Raise e, st).

Definition bind {A B} (m : M A) (k : A -> M B) : M B :=
  fun st =>
    match m st with
    | (Ok a, st1) => k a st1
    | (Raise e, st1) => (Raise e, st1)
    end.

Notation "'let!' x ':=' m 'in' k" := (bind m (fun x => k))
  (at level 10, x name, m at level 100, k at level 200).
Notation "m ';;;' k" := (bind m (fun _ => k))
  (at level 100, k at level 200, right associativity).

(** [try: body finally: fin] -- [fin] always runs; if it raises, its
    exception replaces the outcome of [body]. *)
Definition try_finally {A} (body : M A) (fin : M unit) : M A :=
  fun st =>
    match body st with
    | (r, st1) =>
        match fin st1 with
        | (Ok _, st2) => (r, st2)
        | (Raise e, st2) => (Raise e, st2)
        end
    end.

Definition emit (ev : Event) (st : State) : State :=
  {| trace := trace st ++ [ev]; fs := fs st;
     self_services_manager := self_services_manager st;
     self_container_runner := self_container_runner st |}.

(** A call to a collaborator: record the event, hand over the answer the
    environment gives for the history so far. *)
Definition call {A} (ev : Event) (answer : list Event -> Res A) : M A :=
  fun st => (answer (trace st), emit ev st).

Definition log (lvl : Level) (fmt : string) (args : list LogArg) : M unit :=
  fun st => (Ok tt, emit (EvLog lvl fmt args) st).

Definition set_services_manager (o : option ServicesManager) : M unit :=
  fun st => (Ok tt,
    {| trace := trace st; fs := fs st;
       self_services_manager := o;
       self_container_runner := self_container_runner st |}).

Definition set_container_runner (o : option ContainerRunner) : M unit :=
  fun st => (Ok tt,
    {| trace := trace st; fs := fs st;
       self_services_manager := self_services_manager st;
       self_container_runner := o |}).

Definition get_services_manager : M (option ServicesManager) :=
  fun st => (Ok (self_services_manager st), st).

Definition get_container_runner : M (option ContainerRunner) :=
  fun st => (Ok (self_container_runner st), st).

(** [self._container_runner.<method>(...)]: a method call on [None]
    raises [AttributeError]. *)
Definition the_container_runner : M ContainerRunner :=
  fun st =>
    match self_container_runner st with
    | Some cr => (Ok cr, st)
    | None => (Raise (AttributeError "'NoneType' object has no attribute"), st)
    end.

Definition get_fs : M (gmap string bytes) := fun st => (Ok (fs st), st).

(** [open(file, "rb")] of a file that exists. *)
Definition open_rb (file : string) : M unit :=
  fun st => (Ok tt, emit (EvOpen file "rb") st).

(** [open(file, "wb")]: the file is created or truncated at once (the
    local cache directory is taken to be writable). *)
Definition open_wb (file : string) : M unit :=
  fun st => (Ok tt,
    {| trace := trace st ++ [EvOpen file "wb"];
       fs := <[file := []]> (fs st);
       self_services_manager := self_services_manager st;
       self_container_runner := self_container_runner st |}).

(** [f.write(chunk)] on a file opened by [open_wb]: append. *)
Definition write_chunk (file : string) (chunk : bytes) : M unit :=
  fun st => (Ok tt,
    {| trace := trace st;
       fs := <[file := default [] (fs st !! file) ++ chunk]> (fs st);
       self_services_manager := self_services_manager st;
       self_container_runner := self_container_runner st |}).

(** The double-quote character of the shell command built by
    [_upload_cache]. *)
Definition dquote : string := String (ascii_of_nat 34) EmptyString.

(** ** [os.path] on POSIX paths *)

Definition slash : ascii := "/"%char.

Definition is_slash (c : ascii) : bool := Ascii.eqb c slash.

Fixpoint drop_while (p : ascii -> bool) (l : list ascii) : list ascii :=
  match l with
  | [] => []
  | c :: l' => if p c then drop_while p l' else l
  end.

(** [s.rstrip(c)] for the characters satisfying [p]. *)
Definition rstrip (p : ascii -> bool) (l : list ascii) : list ascii :=
  rev (drop_while p (rev l)).

(** [os.path.join(a, b)] *)
Definition os_path_join (a b : string) : string :=
  match list_ascii_of_string b with
  | c :: _ =>
      if is_slash c then b
      else match rev (list_ascii_of_string a) with
           | [] => b
           | d :: _ => if is_slash d then a +:+ b else a +:+ "/" +:+ b
           end
  | [] =>
      match rev (list_ascii_of_string a) with
      | [] => b
      | d :: _ => if is_slash d then a +:+ b else a +:+ "/" +:+ b
      end
  end.

(** [os.path.dirname(p)]: the head up to the last slash, with its
    trailing slashes removed unless it consists of slashes only. *)
Definition os_path_dirname (p : string) : string :=
  let head := rstrip (fun c => negb (is_slash c)) (list_ascii_of_string p) in
  match head with
  | [] => EmptyString
  | _ => if forallb is_slash head then string_of_list_ascii head
         else string_of_list_ascii (rstrip is_slash head)
  end.

Example os_path_join_ex :
  os_path_join "/home/u/.cache" "pip.tar" = "/home/u/.cache/pip.tar"
  /\ os_path_join "/cache/" "pip.tar" = "/cache/pip.tar"
  /\ os_path_join EmptyString "pip.tar" = "pip.tar"
  /\ os_path_join "/cache" "/abs.tar" = "/abs.tar".
Proof. repeat split; reflexivity. Qed.

Example os_path_dirname_ex :
  os_path_dirname "/root/.cache/pip" = "/root/.cache"
  /\ os_path_dirname "/pip" = "/"
  /\ os_path_dirname "pip" = EmptyString
  /\ os_path_dirname "/a//b" = "/a"
  /\ os_path_dirname "//b" = "//".
Proof. repeat split; reflexivity. Qed.

(** Python's truth value of an optional exit code: [None] and [0] are
    false. *)
Definition truthy (exit_code : option Z) : bool :=
  match exit_code with
  | Some c => negb (c =? 0)
  | None => false
  end.

(** * [cache.py]: [CacheManager] *)

Module CacheManager.
Section CacheManager.

Variable E : Env.

(** The fields set by [__init__]. *)
Variable _container : ContainerRunner.
Variable _cache_definitions : gmap string Cache.

Definition _ignored_caches : gset string := {["docker"]}.

Definition _should_ignore (cache_name : string) : bool :=
  bool_decide (cache_name ∈ _ignored_caches).

Definition _get_local_cache_archive_path (cache_name : string) : M string :=
  let! d := call EvLocalCacheDirectory (get_local_cache_directory E) in
  ret (os_path_join d (cache_name +:+ ".tar")).

Definition _get_remote_directory (cache_name : string) : M string :=
  match _cache_definitions !! cache_name with
  | None => raise (ValueError ("Invalid cache: " +:+ cache_name))
  | Some c =>
      let remote_dir := path c in
      call (EvExpandPath _container remote_dir)
           (expand_path E _container remote_dir)
  end.

Definition _upload_cache (cache_name : string) : M unit :=
  if _should_ignore cache_name then
    log INFO "Cache '%s': Ignoring" [AStr cache_name]
  else
  let! local_cache_archive_path := _get_local_cache_archive_path cache_name in
  let! files := get_fs in
  match files !! local_cache_archive_path with
  | None =>
      (* not os.path.exists(local_cache_archive_path) *)
      log INFO "Cache '%s': Not found: Skipping" [AStr cache_name]
  | Some content =>
      let! remote_cache_directory := _get_remote_directory cache_name in
      let remote_cache_parent_directory := os_path_dirname remote_cache_directory in
      let cache_archive_size := Z.of_nat (length content) in
      log INFO "Cache '%s': Uploading" [AStr cache_name];;;
      let prepare_cache_dir_cmd :=
        "[ -d " +:+ dquote +:+ remote_cache_directory +:+ dquote
          +:+ " ] && rm -rf " +:+ dquote +:+ remote_cache_directory +:+ dquote
          +:+ "; " +:+ "mkdir -p " +:+ dquote
          +:+ remote_cache_parent_directory +:+ dquote in
      let! r := call (EvRunCommand _container (CmdShell prepare_cache_dir_cmd))
                     (run_command E _container (CmdShell prepare_cache_dir_cmd)) in
      let! ro := (fun st => (command_unpack r, st)) in
      let '(res, output) := ro in
      if negb (res =? 0) then
        log ERROR "Remote command failed: %s" [ABytes output];;;
        raise (PyException ("Error uploading cache: " +:+ cache_name))
      else
        open_rb local_cache_archive_path;;;
        let! success := call (EvPutArchive _container remote_cache_parent_directory content)
                             (put_archive E _container remote_cache_parent_directory content) in
        if negb success then
          raise (PyException ("Error uploading cache: " +:+ cache_name))
        else
          log INFO "Cache '%s': Uploaded %s in %.3fs"
              [AStr cache_name; ASize cache_archive_size; AElapsed]
  end.

(** The [for chunk in data:] loop of [_download_cache]; returns the
    accumulated [size]. *)
Fixpoint write_chunks (file : string) (data : list bytes) (size : Z) : M Z :=
  match data with
  | [] => ret size
  | chunk :: rest =>
      write_chunk file chunk;;;
      write_chunks file rest (size + Z.of_nat (length chunk))
  end.

Definition _download_cache (cache_name : string) : M unit :=
  if _should_ignore cache_name then
    log INFO "Cache '%s': Ignoring" [AStr cache_name]
  else
  let! local_cache_archive_path := _get_local_cache_archive_path cache_name in
  let! remote_cache_directory := _get_remote_directory cache_name in
  (if String.eqb remote_cache_directory EmptyString
   then log INFO "Cache '%s': Ignoring" [AStr cache_name]
   else ret tt);;;
  log INFO "Cache '%s': Downloading" [AStr cache_name];;;
  (* with open(local_cache_archive_path, "wb") as f: *)
  open_wb local_cache_archive_path;;;
  let! a := call (EvGetArchive _container remote_cache_directory)
                 (get_archive E _container remote_cache_directory) in
  let! size := write_chunks local_cache_archive_path (chunks a) 0 in
  match stream_error a with
  | Some e => raise e
  | None =>
      log INFO "Cache '%s': Downloaded %s in %.3fs"
          [AStr cache_name; ASize size; AElapsed]
  end.

Fixpoint upload (cache_names : list string) : M unit :=
  match cache_names with
  | [] => ret tt
  | cache :: rest => _upload_cache cache;;; upload rest
  end.

Fixpoint download (cache_names : list string) : M unit :=
  match cache_names with
  | [] => ret tt
  | cache :: rest => _download_cache cache;;; download rest
  end.

End CacheManager.
End CacheManager.

(** * [__init__.py]: the runners *)

(** Modelled from the spec: [CloneSettings.default()] lives in [models],
    which is not part of the sources at hand.  The specification gives the
    built-in system default as enabled = true, lfs = true, depth = unset
    (full history). *)
Definition spec_CloneSettings_default : CloneSettings :=
  {| depth := None; lfs := Some true; enabled := Some true |}.

(** The first value of the tuple that [is not None]; [None] when the loop
    falls through. *)
Definition first_not_none {A} (vs : list (option A)) : option A :=
  (fix loop (l : list (option A)) : option A :=
     match l with
     | [] => None
     | Some v :: _ => Some v
     | None :: rest => loop rest
     end) vs.

Section Engine.

Variable E : Env.
Variable config : Config.
(** The value of [CloneSettings.default()]. *)
Variable CloneSettings_default : CloneSettings.

(** [str(uuid.uuid4())] *)
Definition new_uuid : M string :=
  call EvUuid4 (fun h => Ok (uuid4 E h)).

(** [StepRunner.__init__]: both handles start as [None]. *)
Definition StepRunner_init : M unit :=
  set_services_manager None;;; set_container_runner None.

Section StepRunner.

Variable _step : Step.
Variable _pipeline_uuid : string.
Variable _step_uuid : string.
Variable _definitions : Pipelines.

Definition _should_run : bool :=
  match selected_steps config with
  | [] => true
  | _ :: _ =>
      if negb (bool_decide (name _step ∈ selected_steps config))
      then false else true
  end.

Definition _get_image : Image :=
  match image _step with
  | Some i => i
  | None =>
      match def_image _definitions with
      | Some i => i
      | None => {| image_name := default_image config |}
      end
  end.

Definition _get_build_container_memory_limit : Z :=
  build_container_base_memory_limit config * size _step.

Definition _should_clone : option bool :=
  first_not_none [ enabled (clone_settings _step);
                   enabled (def_clone_settings _definitions);
                   enabled CloneSettings_default ].

Definition _should_clone_lfs : option bool :=
  first_not_none [ lfs (clone_settings _step);
                   lfs (def_clone_settings _definitions);
                   lfs CloneSettings_default ].

Definition _get_clone_depth : option Z :=
  first_not_none [ depth (clone_settings _step);
                   depth (def_clone_settings _definitions);
                   depth CloneSettings_default ].

(** The argv of the clone command, given the current branch. *)
Definition clone_cmd (branch : string) : list string :=
  let cmd := [] in
  let cmd := if negb (default false _should_clone_lfs)
             then cmd ++ ["GIT_LFS_SKIP_SMUDGE=1"] else cmd in
  let cmd := cmd ++ ["git"; "clone"; "--branch"; branch] in
  let clone_depth := _get_clone_depth in
  let cmd := match clone_depth with
             | Some d => if negb (d =? 0)
                         then cmd ++ ["--depth"; pretty d] else cmd
             | None => cmd
             end in
  cmd ++ ["file://" +:+ remote_workspace_dir config; "$BUILD_DIR"].

Definition reset_cmd : list string :=
  ["git"; "reset"; "--hard"; "$BITBUCKET_COMMIT"].

Definition _clone_repository : M unit :=
  if negb (default false _should_clone) then
    log INFO "Clone disabled: skipping" []
  else
    let! branch := call EvGitCurrentBranch (get_git_current_branch E) in
    let cmd := clone_cmd branch in
    let! cr := the_container_runner in
    let! exit_code := call (EvRunCommand cr (CmdArgv cmd))
                           (run_command E cr (CmdArgv cmd)) in
    if command_truthy exit_code then
      raise (PyException "Error cloning repository")
    else
      let! exit_code := call (EvRunCommand cr (CmdArgv reset_cmd))
                             (run_command E cr (CmdArgv reset_cmd)) in
      if command_truthy exit_code then
        raise (PyException "Error resetting to HEAD commit")
      else ret tt.

Definition _upload_artifacts : M unit :=
  let! cr := the_container_runner in
  call (EvArtifactUpload cr _pipeline_uuid _step_uuid)
       (artifact_upload E cr _pipeline_uuid _step_uuid).

Definition _upload_caches : M unit :=
  let! cr := the_container_runner in
    CacheManager.upload E cr (def_caches _definitions) (caches _step).

Definition _build_setup : M unit :=
  log INFO "Build setup: '%s'" [AStr (name _step)];;;
  _clone_repository;;;
  _upload_artifacts;;;
  _upload_caches;;;
  log INFO "Build setup finished in %.3fs: '%s'" [AElapsed; AStr (name _step)].

Definition _download_caches (exit_code : Z) : M unit :=
  if exit_code =? 0 then
    let! cr := the_container_runner in
      CacheManager.download E cr (def_caches _definitions) (caches _step)
  else
    log WARNING "Skipping caches for failed step" [].

Definition _download_artifacts : M unit :=
  let! cr := the_container_runner in
  call (EvArtifactDownload cr _pipeline_uuid _step_uuid (artifacts _step))
       (artifact_download E cr _pipeline_uuid _step_uuid (artifacts _step)).

Definition _stop_services : M unit := ret tt.

Definition _build_teardown (exit_code : Z) : M unit :=
  log INFO "Build teardown: '%s'" [AStr (name _step)];;;
  _download_caches exit_code;;;
  _download_artifacts;;;
  _stop_services;;;
  log INFO "Build teardown finished in %.3fs: '%s'" [AElapsed; AStr (name _step)].

(** Lines 103-116 of [run]: the handles are stored in [self] before
    the resource is started. *)
Definition run_acquire : M ContainerRunner :=
  let image := _get_image in
  let container_name :=
    project_slug config +:+ "-step-" +:+ slugify E (name _step) in
  let data_volume_name := container_name +:+ "-data" in
  let mem_limit := _get_build_container_memory_limit in
  let sm := {| sm_services := services _step;
               sm_definitions := def_services _definitions;
               sm_size := size _step;
               sm_data_volume_name := data_volume_name |} in
  set_services_manager (Some sm);;;
  call (EvStartServices sm) (start_services E sm);;;
  let! services_names := call (EvGetServicesNames sm) (get_services_names E sm) in
  let cr := {| cr_image := image; cr_name := container_name;
               cr_mem_limit := mem_limit;
               cr_services_names := services_names;
               cr_data_volume_name := data_volume_name |} in
  set_container_runner (Some cr);;;
  call (EvContainerStart cr) (container_start E cr);;;
  ret cr.

(** Lines 118-127 of [run]. *)
Definition run_lifecycle (cr : ContainerRunner) : M Z :=
  _build_setup;;;
  let! exit_code := call (EvRunScript cr (script _step) None)
                         (run_script E cr (script _step) None) in
  let after_env := Some [("BITBUCKET_EXIT_CODE", exit_code)] in
  call (EvRunScript cr (after_script _step) after_env)
       (run_script E cr (after_script _step) after_env);;;
  (if negb (exit_code =? 0)
   then log ERROR "Step '%s': FAIL" [AStr (name _step)]
   else ret tt);;;
  _build_teardown exit_code;;;
  ret exit_code.

(** The [finally] block of [run]. *)
Definition run_release : M unit :=
  let! sm := get_services_manager in
  match sm with
  | Some sm => call (EvStopServices sm) (stop_services E sm)
  | None => ret tt
  end;;;
  let! cr := get_container_runner in
  match cr with
  | Some cr => call (EvContainerStop cr) (container_stop E cr)
  | None => ret tt
  end.

Definition StepRunner_run : M (option Z) :=
  if negb _should_run then
    log INFO "Skipping step: %s" [AStr (name _step)];;;
    ret None
  else
    log INFO "Running step: %s" [AStr (name _step)];;;
    log DEBUG "Step ID: %s" [AStr _step_uuid];;;
    let! exit_code :=
      try_finally (let! cr := run_acquire in run_lifecycle cr) run_release in
    log INFO "Step '%s' executed in %.3fs with exit code: %s"
        [AStr (name _step); AElapsed; AInt exit_code];;;
    ret (Some exit_code).

End StepRunner.

(** [ParallelStepRunner.run]; [factory_run s pu su] stands for
    [StepRunnerFactory.get(s, pu, su, definitions).run()]. *)
Section ParallelStepRunner.

Variable factory_run : Node -> string -> string -> M (option Z).
Variable _pipeline_uuid : string.
Variable _step_uuid : string.

Fixpoint parallel_loop (steps : list Node) (return_code : Z) : M (option Z) :=
  match steps with
  | [] => ret (Some return_code)
  | s :: rest =>
      let! rc := factory_run s _pipeline_uuid _step_uuid in
      parallel_loop rest (if truthy rc then default 0 rc else return_code)
  end.

Definition ParallelStepRunner_run (steps : list Node) : M (option Z) :=
  parallel_loop steps 0.

End ParallelStepRunner.

Variable definitions : Pipelines.

(** [StepRunnerFactory.get(step, pipeline_uuid, step_uuid, definitions)]
    followed by [.run()] on the runner obtained. *)
Fixpoint StepRunnerFactory_get_run (step : Node) (pipeline_uuid step_uuid : string)
  {struct step} : M (option Z) :=
  match step with
  | ParallelNode _ steps =>
      StepRunner_init;;;
      ParallelStepRunner_run StepRunnerFactory_get_run pipeline_uuid step_uuid steps
  | StepNode s =>
      StepRunner_init;;;
      StepRunner_run s pipeline_uuid step_uuid definitions
  end.

(** [PipelineRunner._execute_pipeline]; [_uuid] is the pipeline-run
    identifier chosen in [PipelineRunner.__init__]. *)
Fixpoint _execute_pipeline (_uuid : string) (steps : list Node) : M (option Z) :=
  match steps with
  | [] => ret None
  | step :: rest =>
      let! step_uuid := new_uuid in
      let! exit_code := StepRunnerFactory_get_run step _uuid step_uuid in
      if truthy exit_code then ret exit_code
      else _execute_pipeline _uuid rest
  end.

End Engine.

(** ** Reading a trace *)

Definition is_release (ev : Event) : bool :=
  match ev with
  | EvStopServices _ | EvContainerStop _ => true
  | _ => false
  end.

Definition is_acquire (ev : Event) : bool :=
  match ev with
  | EvStartServices _ | EvContainerStart _ => true
  | _ => false
  end.

Definition is_artifact_download (ev : Event) : bool :=
  match ev with
  | EvArtifactDownload _ _ _ _ => true
  | _ => false
  end.

(** The argument of a notice logged with the format [fmt] and one string
    argument. *)
Definition notice_arg (fmt : string) (ev : Event) : option string :=
  match ev with
  | EvLog _ f [AStr u] => if String.eqb f fmt then Some u else None
  | _ => None
  end.

(** The identifiers in the "Step ID" notices of a trace, in order. *)
Definition step_ids (tr : list Event) : list string :=
  omap (notice_arg "Step ID: %s") tr.

(** The names in the "Running step" notices of a trace, in order. *)
Definition running_steps (tr : list Event) : list string :=
  omap (notice_arg "Running step: %s") tr.

(** * Scenarios: concrete collaborators used to run the engine *)

Module Scenario.

(** Collaborators that all succeed, except for what the four arguments
    say: the exit status of a script, the answer to a command, the
    outcome of stopping the services and the archive stream. *)
Definition mk_env
    (script_rc : list string -> Res Z)
    (command_rc : Command -> Res CommandResult)
    (stop_rc : Res unit)
    (archive : Res Archive) : Env :=
  {| uuid4 := fun h => "uuid-" +:+ pretty (Z.of_nat (length h));
     slugify := fun s => s;
     start_services := fun _ _ => Ok tt;
     get_services_names := fun sm _ => Ok (sm_services sm);
     stop_services := fun _ _ => stop_rc;
     container_start := fun _ _ => Ok tt;
     container_stop := fun _ _ => Ok tt;
     run_script := fun _ cmds env _ =>
                     match env with
                     | None => script_rc cmds
                     | Some _ => Ok 0
                     end;
     run_command := fun _ cmd _ => command_rc cmd;
     put_archive := fun _ _ _ _ => Ok true;
     get_archive := fun _ _ _ => archive;
     expand_path := fun _ p _ => Ok p;
     artifact_upload := fun _ _ _ _ => Ok tt;
     artifact_download := fun _ _ _ _ _ => Ok tt;
     get_git_current_branch := fun _ => Ok "main";
     get_local_cache_directory := fun _ => Ok "/home/u/.cache/pipeline-runner" |}.

Definition empty_archive : Archive := {| chunks := []; stream_error := None |}.

(** A script is a one-line [exit n]; the container returns [n]. *)
Definition exit_script (n : Z) : list string := ["exit " +:+ pretty n].

Definition script_status (cmds : list string) : Res Z :=
  if bool_decide (cmds = exit_script 5) then Ok 5
  else if bool_decide (cmds = exit_script 3) then Ok 3
  else if bool_decide (cmds = exit_script 7) then Ok 7
  else Ok 0.

(** Every command succeeds; an argv command is answered with a status
    and a shell string with a pair, the shape its call site consumes. *)
Definition command_ok (cmd : Command) : Res CommandResult :=
  match cmd with
  | CmdArgv _ => Ok (ResCode 0)
  | CmdShell _ => Ok (ResPair 0 [])
  end.

Definition env_ok : Env :=
  mk_env script_status command_ok (Ok tt) (Ok empty_archive).

Definition cfg : Config :=
  {| project_slug := "proj"; selected_steps := [];
     default_image := "alpine"; build_container_base_memory_limit := 1024;
     remote_workspace_dir := "/var/run/workspace" |}.

Definition unset : CloneSettings :=
  {| depth := None; lfs := None; enabled := None |}.

Definition defs : Pipelines :=
  {| def_image := None; def_clone_settings := unset;
     def_services := <["postgres" := {| service_image := "postgres:13" |}]>
                     (<["redis" := {| service_image := "redis:6" |}]> ∅);
     def_caches := <["pip" := {| path := "/root/.cache/pip" |}]> ∅ |}.

Definition mk_step (n : string) (rc : Z) : Step :=
  {| name := n; script := exit_script rc; after_script := [];
     image := None; clone_settings := unset; size := 1;
     services := ["postgres"; "redis"]; caches := ["pip"];
     artifacts := ["dist/**"] |}.

Definition st0 : State :=
  {| trace := []; fs := ∅;
     self_services_manager := None; self_container_runner := None |}.

(** The handles that [run] builds for [mk_step n rc]. *)
Definition sm_of (n : string) : ServicesManager :=
  {| sm_services := ["postgres"; "redis"];
     sm_definitions := def_services defs; sm_size := 1;
     sm_data_volume_name := "proj-step-" +:+ n +:+ "-data" |}.

Definition cr_of (n : string) : ContainerRunner :=
  {| cr_image := {| image_name := "alpine" |};
     cr_name := "proj-step-" +:+ n; cr_mem_limit := 1024;
     cr_services_names := ["postgres"; "redis"];
     cr_data_volume_name := "proj-step-" +:+ n +:+ "-data" |}.

Definition old_archive : bytes := [x01; x02; x03].

Definition pip_tar : string := "/home/u/.cache/pipeline-runner/pip.tar".

(** A state in which the step's services and container are running and
    the local cache holds an earlier archive of [pip]. *)
Definition st_running (n : string) : State :=
  {| trace := []; fs := <[pip_tar := old_archive]> ∅;
     self_services_manager := Some (sm_of n);
     self_container_runner := Some (cr_of n) |}.

(** The container of [env_ok], except that [git clone] exits with 128. *)
Definition clone_fails (cmd : Command) : Res CommandResult :=
  match cmd with
  | CmdArgv ("git" :: "clone" :: _) => Ok (ResCode 128)
  | _ => command_ok cmd
  end.

Definition env_clone_fails : Env :=
  mk_env script_status clone_fails (Ok tt) (Ok empty_archive).

(** The collaborators of [env_ok], except that stopping the services
    raises. *)
Definition env_stop_fails : Env :=
  mk_env script_status command_ok
    (Raise (ExternalError "docker: cannot stop service")) (Ok empty_archive).

(** The same, and the script does not return an exit code: the
    container runner raises. *)
Definition env_script_and_stop_fail : Env :=
  mk_env (fun _ => Raise (ExternalError "docker: exec failed")) command_ok
    (Raise (ExternalError "docker: cannot stop service")) (Ok empty_archive).

(** The script raises; the release actions work. *)
Definition env_script_fails : Env :=
  mk_env (fun _ => Raise (ExternalError "docker: exec failed")) command_ok
    (Ok tt) (Ok empty_archive).

End Scenario.

(** * Properties *)

(** Events recorded between two states. *)
Definition new_events (st st' : State) : list Event :=
  drop (length (trace st)) (trace st').

Lemma new_events_app st st' evs :
  trace st' = trace st ++ evs -> new_events st st' = evs.
Proof.
  intros H. unfold new_events. rewrite H. apply drop_app_length.
Qed.

(** ** Clone settings *)

(** The cascade in the words of the specification: the first value that
    is set, looking at the step, then the pipeline-level definitions,
    then the system default. *)
Definition cascade {A} (step_v pipeline_v system_v : option A) : option A :=
  match step_v with
  | Some v => Some v
  | None => match pipeline_v with
            | Some v => Some v
            | None => system_v
            end
  end.

Lemma first_not_none_cascade {A} (a b c : option A) :
  first_not_none [a; b; c] = cascade a b c.
Proof. destruct a, b, c; reflexivity. Qed.

(** [step.clone_settings.depth = o] and [definitions.clone_settings.depth = o],
    everything else kept. *)
Definition step_with_depth (o : option Z) (s : Step) : Step :=
  {| name := name s; script := script s; after_script := after_script s;
     image := image s;
     clone_settings := {| depth := o; lfs := lfs (clone_settings s);
                          enabled := enabled (clone_settings s) |};
     size := size s; services := services s; caches := caches s;
     artifacts := artifacts s |}.

Definition definitions_with_depth (o : option Z) (p : Pipelines) : Pipelines :=
  {| def_image := def_image p;
     def_clone_settings := {| depth := o; lfs := lfs (def_clone_settings p);
                              enabled := enabled (def_clone_settings p) |};
     def_services := def_services p; def_caches := def_caches p |}.

(** C8.  Each of the three clone settings ([enabled], [lfs], [depth]) is
    resolved on its own as the first value that is set among the step's
    override, the pipeline-level default and the system default.  With the
    step's depth unset and the pipeline's depth 10 the effective depth is
    10; with the step's depth 3 it is 3; with both unset it is the system
    default, which the specification gives as unset (full history), and
    then the clone command carries no [--depth] argument. *)
Theorem clone_settings_cascade
    (d : CloneSettings) (s : Step) (p : Pipelines) (cfg : Config) (branch : string) :
  _should_clone d s p
    = cascade (enabled (clone_settings s)) (enabled (def_clone_settings p)) (enabled d)
  /\ _should_clone_lfs d s p
    = cascade (lfs (clone_settings s)) (lfs (def_clone_settings p)) (lfs d)
  /\ _get_clone_depth d s p
    = cascade (depth (clone_settings s)) (depth (def_clone_settings p)) (depth d)
  /\ _get_clone_depth d (step_with_depth None s) (definitions_with_depth (Some 10) p)
    = Some 10
  /\ _get_clone_depth d (step_with_depth (Some 3) s) (definitions_with_depth (Some 10) p)
    = Some 3
  /\ _get_clone_depth d (step_with_depth None s) (definitions_with_depth None p)
    = depth d
  /\ _get_clone_depth spec_CloneSettings_default
       (step_with_depth None s) (definitions_with_depth None p) = None
  /\ clone_cmd cfg spec_CloneSettings_default
       (step_with_depth None s) (definitions_with_depth None p) branch
    = (if negb (default false
                  (cascade (lfs (clone_settings s)) (lfs (def_clone_settings p))
                           (Some true)))
       then ["GIT_LFS_SKIP_SMUDGE=1"] else [])
      ++ ["git"; "clone"; "--branch"; branch;
          "file://" +:+ remote_workspace_dir cfg; "$BUILD_DIR"].
Proof.
  unfold _should_clone, _should_clone_lfs, _get_clone_depth.
  rewrite !first_not_none_cascade.
  repeat split; try reflexivity.
  unfold clone_cmd, _should_clone_lfs, _get_clone_depth.
  rewrite !first_not_none_cascade. simpl.
  destruct (cascade _ _ _) as [[|]|]; reflexivity.
Qed.

(** ** Traces: what a computation may record *)

(** [emits P m]: running [m] only appends events, and each of them
    satisfies [P]. *)
Definition emits {A} (P : Event -> Prop) (m : M A) : Prop :=
  forall st, exists evs, trace (m st).2 = trace st ++ evs /\ Forall P evs.

Lemma emits_ret {A} P (a : A) : emits P (ret a).
Proof. intros st. exists []. simpl. rewrite app_nil_r. auto. Qed.

Lemma emits_raise {A} P e : emits P (@raise A e).
Proof. intros st. exists []. simpl. rewrite app_nil_r. auto. Qed.

Lemma emits_bind {A B} P (m : M A) (k : A -> M B) :
  emits P m -> (forall a, emits P (k a)) -> emits P (bind m k).
Proof.
  intros Hm Hk st. unfold bind.
  destruct (Hm st) as (evs & Ht & Hf).
  destruct (m st) as [[a|e] st1]; simpl in *.
  - destruct (Hk a st1) as (evs' & Ht' & Hf').
    exists (evs ++ evs'). rewrite Ht', Ht, app_assoc. split; [done|].
    apply Forall_app; auto.
  - exists evs. auto.
Qed.

Lemma emits_call {A} (P : Event -> Prop) ev (f : list Event -> Res A) :
  P ev -> emits P (call ev f).
Proof. intros H st. exists [ev]. simpl. auto. Qed.

Lemma emits_log (P : Event -> Prop) lvl fmt args :
  P (EvLog lvl fmt args) -> emits P (log lvl fmt args).
Proof. intros H st. exists [EvLog lvl fmt args]. simpl. auto. Qed.

Lemma emits_silent {A} P (m : M A) :
  (forall st, trace (m st).2 = trace st) -> emits P m.
Proof. intros H st. exists []. rewrite H, app_nil_r. auto. Qed.

Lemma emits_try_finally {A} P (body : M A) (fin : M unit) :
  emits P body -> emits P fin -> emits P (try_finally body fin).
Proof.
  intros Hb Hf st. unfold try_finally.
  destruct (Hb st) as (evs & Ht & HP).
  destruct (body st) as [r st1]; simpl in *.
  destruct (Hf st1) as (evs' & Ht' & HP').
  exists (evs ++ evs').
  destruct (fin st1) as [[[]|e] st2]; simpl in *;
    rewrite Ht', Ht, app_assoc; (split; [done | apply Forall_app; auto]).
Qed.

Lemma emits_mono {A} (P Q : Event -> Prop) (m : M A) :
  (forall ev, P ev -> Q ev) -> emits P m -> emits Q m.
Proof.
  intros HPQ Hm st. destruct (Hm st) as (evs & Ht & HP).
  exists evs. split; [done|]. eapply Forall_impl; eauto.
Qed.

Lemma emits_new_events {A} P (m : M A) st :
  emits P m -> Forall P (new_events st (m st).2).
Proof.
  intros Hm. destruct (Hm st) as (evs & Ht & HP).
  by rewrite (new_events_app _ _ _ Ht).
Qed.

Lemma emits_extends {A} P (m : M A) st r st' :
  emits P m -> m st = (r, st') ->
  trace st' = trace st ++ new_events st st'.
Proof.
  intros Hm Heq. destruct (Hm st) as (evs & Ht & _).
  rewrite Heq in Ht. simpl in Ht.
  by rewrite (new_events_app _ _ _ Ht).
Qed.

(** The events of one step's Setup, Execute and Teardown: notices other
    than the "Step ID" one, git and cache traffic, scripts, and artifact
    transfers made under the identifiers [pu] and [su].  No resource is
    started or stopped and no identifier is drawn. *)
Definition lifecycle_event (pu su : string) (ev : Event) : Prop :=
  match ev with
  | EvLog _ fmt _ => fmt <> "Step ID: %s"
  | EvArtifactUpload _ p s => p = pu /\ s = su
  | EvArtifactDownload _ p s _ => p = pu /\ s = su
  | EvRunScript _ _ _ | EvRunCommand _ _ | EvPutArchive _ _ _
  | EvGetArchive _ _ | EvExpandPath _ _ | EvGitCurrentBranch
  | EvLocalCacheDirectory | EvOpen _ _ => True
  | EvUuid4 | EvStartServices _ | EvGetServicesNames _ | EvStopServices _
  | EvContainerStart _ | EvContainerStop _ => False
  end.

Ltac emits_event := simpl; first [ exact I | discriminate | tauto | done ].

Ltac emits_step :=
  first
    [ apply emits_ret
    | apply emits_raise
    | apply emits_log; emits_event
    | apply emits_call; emits_event
    | apply emits_silent; intros; reflexivity
    | apply emits_bind; [ | intros ]
    | match goal with
      | |- emits _ (if ?b then _ else _) => destruct b
      | |- emits _ (match ?x with _ => _ end) => destruct x
      | |- emits _ (let '(_, _) := ?x in _) => destruct x
      end ].

Section Footprints.

Variable E : Env.
Variables pu su : string.

Lemma emits_write_chunks file data size :
  emits (lifecycle_event pu su) (CacheManager.write_chunks file data size).
Proof.
  revert size. induction data as [|c data IH]; intros size; simpl.
  - apply emits_ret.
  - apply emits_bind; [ apply emits_silent; reflexivity | intros; apply IH ].
Qed.

Lemma emits_get_local_path n :
  emits (lifecycle_event pu su) (CacheManager._get_local_cache_archive_path E n).
Proof. unfold CacheManager._get_local_cache_archive_path. repeat emits_step. Qed.

Lemma emits_get_remote_directory cr defs n :
  emits (lifecycle_event pu su) (CacheManager._get_remote_directory E cr defs n).
Proof. unfold CacheManager._get_remote_directory. repeat emits_step. Qed.

Lemma emits_open_rb file : emits (lifecycle_event pu su) (open_rb file).
Proof.
  intros st. exists [EvOpen file "rb"]. simpl. split; [done|].
  by repeat constructor.
Qed.

Lemma emits_open_wb file : emits (lifecycle_event pu su) (open_wb file).
Proof.
  intros st. exists [EvOpen file "wb"]. simpl. split; [done|].
  by repeat constructor.
Qed.

Lemma emits_upload_cache cr defs n :
  emits (lifecycle_event pu su) (CacheManager._upload_cache E cr defs n).
Proof.
  unfold CacheManager._upload_cache, get_fs.
  pose proof emits_get_local_path. pose proof emits_get_remote_directory.
  pose proof emits_open_rb.
  repeat first [ done | emits_step ].
Qed.

Lemma emits_download_cache cr defs n :
  emits (lifecycle_event pu su) (CacheManager._download_cache E cr defs n).
Proof.
  unfold CacheManager._download_cache.
  pose proof emits_get_local_path. pose proof emits_get_remote_directory.
  pose proof emits_write_chunks. pose proof emits_open_wb.
  repeat first [ done | emits_step ].
Qed.

Lemma emits_upload cr defs names :
  emits (lifecycle_event pu su) (CacheManager.upload E cr defs names).
Proof.
  induction names as [|n names IH]; simpl.
  - apply emits_ret.
  - apply emits_bind; [ apply emits_upload_cache | intros; apply IH ].
Qed.

Lemma emits_download cr defs names :
  emits (lifecycle_event pu su) (CacheManager.download E cr defs names).
Proof.
  induction names as [|n names IH]; simpl.
  - apply emits_ret.
  - apply emits_bind; [ apply emits_download_cache | intros; apply IH ].
Qed.

Variable config : Config.
Variable d : CloneSettings.
Variable s : Step.
Variable defs : Pipelines.

Lemma emits_the_container_runner :
  emits (lifecycle_event pu su) the_container_runner.
Proof.
  intros st. exists []. unfold the_container_runner.
  destruct (self_container_runner st); simpl; rewrite app_nil_r; auto.
Qed.

Lemma emits_clone_repository :
  emits (lifecycle_event pu su) (_clone_repository E config d s defs).
Proof.
  unfold _clone_repository. pose proof emits_the_container_runner.
  repeat first [ done | emits_step ].
Qed.

Lemma emits_build_setup :
  emits (lifecycle_event pu su) (_build_setup E config d s pu su defs).
Proof.
  unfold _build_setup, _upload_artifacts, _upload_caches.
  pose proof emits_the_container_runner. pose proof emits_clone_repository.
  pose proof emits_upload.
  repeat first [ done | emits_step ].
Qed.

Lemma emits_download_caches c :
  emits (lifecycle_event pu su) (_download_caches E s defs c).
Proof.
  unfold _download_caches.
  pose proof emits_the_container_runner. pose proof emits_download.
  repeat first [ done | emits_step ].
Qed.

Lemma emits_build_teardown c :
  emits (lifecycle_event pu su) (_build_teardown E s pu su defs c).
Proof.
  unfold _build_teardown, _download_artifacts, _stop_services.
  pose proof emits_the_container_runner. pose proof emits_download_caches.
  repeat first [ done | emits_step ].
Qed.

Lemma emits_run_lifecycle cr :
  emits (lifecycle_event pu su) (run_lifecycle E config d s pu su defs cr).
Proof.
  unfold run_lifecycle.
  pose proof emits_build_setup. pose proof emits_build_teardown.
  repeat first [ done | emits_step ].
Qed.

End Footprints.
(** ** The cache manager *)

Section CacheFacts.

Variable E : Env.
Variable cr : ContainerRunner.
Variable defs : gmap string Cache.

(** Writing the chunks of a stream never fails and leaves the trace
    alone; the file ends up holding what it held plus the chunks. *)
Lemma write_chunks_spec file data size st content :
  fs st !! file = Some content ->
  exists st',
    CacheManager.write_chunks file data size st
      = (Ok (size + Z.of_nat (length (concat data))), st')
    /\ trace st' = trace st
    /\ fs st' !! file = Some (content ++ concat data)
    /\ (forall other, other <> file -> fs st' !! other = fs st !! other).
Proof.
  revert size st content.
  induction data as [|c data IH]; intros size st content Hfile; simpl.
  - exists st. rewrite Z.add_0_r, app_nil_r. auto.
  - unfold bind, write_chunk. simpl.
    edestruct IH as (st' & Heq & Htr & Hfs & Hother);
      [ | exists st'; rewrite Heq; split; [| split; [exact Htr | split]] ].
    + simpl. apply lookup_insert_eq.
    + f_equal. f_equal. rewrite length_app. lia.
    + rewrite Hfs, Hfile. simpl. by rewrite app_assoc.
    + intros other Hne. rewrite Hother by done. simpl.
      by rewrite lookup_insert_ne.
Qed.

Lemma write_chunks_trace file data size st :
  trace (CacheManager.write_chunks file data size st).2 = trace st.
Proof.
  revert size st. induction data as [|c data IH]; intros size st; simpl; [done|].
  unfold bind, write_chunk. simpl. by rewrite IH.
Qed.

Lemma write_chunks_ok file data size st :
  exists n, (CacheManager.write_chunks file data size st).1 = Ok n.
Proof.
  revert size st. induction data as [|c data IH]; intros size st; simpl; [eauto|].
  unfold bind, write_chunk. simpl. apply IH.
Qed.

(** The notice that [_download_cache] logs for a cache it went
    through. *)
Definition download_notice (n : string) : Event :=
  EvLog INFO (if CacheManager._should_ignore n
              then "Cache '%s': Ignoring" else "Cache '%s': Downloading")
        [AStr n].

Lemma download_cache_notice n st st' :
  CacheManager._download_cache E cr defs n st = (Ok tt, st') ->
  download_notice n ∈ new_events st st'.
Proof.
  unfold CacheManager._download_cache, download_notice.
  destruct (CacheManager._should_ignore n).
  - unfold log. intros [= <-]. unfold new_events. simpl.
    rewrite drop_app_length. set_solver.
  - unfold CacheManager._get_local_cache_archive_path,
      CacheManager._get_remote_directory, bind, call, log, ret, raise, open_wb.
    simpl.
    destruct (get_local_cache_directory E (trace st)) as [dir|e]; [|done].
    destruct (defs !! n) as [c|]; [|done]. simpl.
    destruct (expand_path E cr (path c) _) as [remote|e]; [|done].
    intros Hrun.
    destruct (String.eqb remote EmptyString); simpl in Hrun;
      match type of Hrun with
      | context [get_archive E cr remote ?h] =>
          destruct (get_archive E cr remote h) as [a|e]; [|done]
      end;
      match type of Hrun with
      | context [CacheManager.write_chunks ?f ?d ?z ?s] =>
          pose proof (write_chunks_trace f d z s) as Htr;
          destruct (CacheManager.write_chunks f d z s) as [[sz|e] st1];
          simpl in Htr
      end; try done;
      destruct (stream_error a); try done;
      injection Hrun as <-;
      (erewrite new_events_app;
       [| simpl; rewrite Htr, <- !app_assoc; simpl; reflexivity ]);
      set_solver.
Qed.

Lemma download_notices names st st' :
  CacheManager.download E cr defs names st = (Ok tt, st') ->
  forall n, n ∈ names -> download_notice n ∈ new_events st st'.
Proof.
  revert st. induction names as [|m names IH]; intros st Hrun n Hin.
  - set_solver.
  - simpl in Hrun. unfold bind in Hrun.
    destruct (CacheManager._download_cache E cr defs m st) as [[[]|e] st1] eqn:H1;
      [|done].
    pose proof (emits_extends _ _ _ _ _
                  (emits_download_cache E EmptyString EmptyString cr defs m) H1) as Ht1.
    pose proof (emits_extends _ _ _ _ _
                  (emits_download E EmptyString EmptyString cr defs names) Hrun) as Ht2.
    assert (new_events st st' = new_events st st1 ++ new_events st1 st') as ->.
    { apply new_events_app. rewrite Ht2, Ht1 at 1. by rewrite app_assoc. }
    apply elem_of_app. apply elem_of_cons in Hin as [->|Hin].
    + left. by apply download_cache_notice.
    + right. by apply IH.
Qed.

End CacheFacts.

(** C7.  Cache persist happens exactly when the script's exit code is 0.
    With a non-zero exit code [_download_caches] records one warning and
    nothing else: no cache is downloaded and the local files are left as
    they were.  With exit code 0 it is [CacheManager.download] on the
    caches listed on the step, and when that returns, every listed cache
    was gone through (its notice is in the trace). *)
Theorem cache_persist_only_on_success
    (E : Env) (s : Step) (p : Pipelines) (cr : ContainerRunner)
    (exit_code : Z) (st : State) (r : Res unit) (st' : State) :
  self_container_runner st = Some cr ->
  _download_caches E s p exit_code st = (r, st') ->
  (exit_code <> 0 ->
     r = Ok tt /\ fs st' = fs st
     /\ new_events st st' = [EvLog WARNING "Skipping caches for failed step" []])
  /\ (exit_code = 0 ->
     CacheManager.download E cr (def_caches p) (caches s) st = (r, st')
     /\ (r = Ok tt ->
         forall n, n ∈ caches s -> download_notice n ∈ new_events st st')).
Proof.
  intros Hcr Hrun. unfold _download_caches in Hrun. split.
  - intros Hne. apply Z.eqb_neq in Hne. rewrite Hne in Hrun.
    unfold log in Hrun. injection Hrun as <- <-. simpl.
    repeat split. unfold new_events. simpl. apply drop_app_length.
  - intros ->. simpl in Hrun.
    unfold bind, the_container_runner in Hrun. rewrite Hcr in Hrun.
    split; [done|]. intros -> n Hin.
    eapply download_notices; eauto.
Qed.

Lemma cache_persist_only_on_success_witness :
  let s := Scenario.mk_step "A" 0 in
  let st := Scenario.st_running "A" in
  new_events st (_download_caches Scenario.env_ok s Scenario.defs 7 st).2
    = [EvLog WARNING "Skipping caches for failed step" []]
  /\ download_notice "pip"
       ∈ new_events st (_download_caches Scenario.env_ok s Scenario.defs 0 st).2.
Proof.
  intros s st. split.
  - refine (proj2 (proj2 (proj1
      (cache_persist_only_on_success Scenario.env_ok s Scenario.defs
         (Scenario.cr_of "A") 7 st _ _ eq_refl (surjective_pairing _)) _))).
    discriminate.
  - refine (proj2 (proj2
      (cache_persist_only_on_success Scenario.env_ok s Scenario.defs
         (Scenario.cr_of "A") 0 st _ _ eq_refl (surjective_pairing _)) eq_refl)
      _ "pip" _).
    + vm_compute. reflexivity.
    + apply list_elem_of_here.
Defined.

Lemma download_app E cr defs pre post st st1 :
  CacheManager.download E cr defs pre st = (Ok tt, st1) ->
  CacheManager.download E cr defs (pre ++ post) st
    = CacheManager.download E cr defs post st1.
Proof.
  revert st. induction pre as [|m pre IH]; intros st Hrun; simpl in *.
  - by injection Hrun as <-.
  - unfold bind in *.
    destruct (CacheManager._download_cache E cr defs m st) as [[[]|e] st2]; [|done].
    by apply IH.
Qed.

Lemma upload_app E cr defs pre post st st1 :
  CacheManager.upload E cr defs pre st = (Ok tt, st1) ->
  CacheManager.upload E cr defs (pre ++ post) st
    = CacheManager.upload E cr defs post st1.
Proof.
  revert st. induction pre as [|m pre IH]; intros st Hrun; simpl in *.
  - by injection Hrun as <-.
  - unfold bind in *.
    destruct (CacheManager._upload_cache E cr defs m st) as [[[]|e] st2]; [|done].
    by apply IH.
Qed.

(** C6, as the code has it.  Take a cache name that is neither in the
    ignore-set nor in the cache definitions, reached after the names
    before it in the list went through, with the local cache directory
    available.  [download] raises the configuration error
    [ValueError "Invalid cache: <name>"] before the local archive is
    opened and before anything is asked of the container, and the names
    after it are not touched.  [upload] does the same when a local archive
    of that name exists; when none exists it skips the name with the
    notice "Not found: Skipping" and goes on with the rest of the list. *)
Theorem unknown_cache_is_configuration_error
    (E : Env) (cr : ContainerRunner) (defs : gmap string Cache)
    (pre post : list string) (n : string) (st0 st : State) (dir : string) :
  CacheManager._should_ignore n = false ->
  defs !! n = None ->
  get_local_cache_directory E (trace st) = Ok dir ->
  let invalid := ValueError ("Invalid cache: " +:+ n) in
  let st1 := emit EvLocalCacheDirectory st in
  let local_archive := os_path_join dir (n +:+ ".tar") in
  (CacheManager.download E cr defs pre st0 = (Ok tt, st) ->
   CacheManager.download E cr defs (pre ++ n :: post) st0 = (Raise invalid, st1))
  /\ (CacheManager.upload E cr defs pre st0 = (Ok tt, st) ->
      is_Some (fs st !! local_archive) ->
      CacheManager.upload E cr defs (pre ++ n :: post) st0 = (Raise invalid, st1))
  /\ (CacheManager.upload E cr defs pre st0 = (Ok tt, st) ->
      fs st !! local_archive = None ->
      CacheManager.upload E cr defs (pre ++ n :: post) st0
        = CacheManager.upload E cr defs post
            (emit (EvLog INFO "Cache '%s': Not found: Skipping" [AStr n]) st1)).
Proof.
  intros Hign Hdef Hdir invalid st1 local_archive.
  subst local_archive. split; [| split].
  - intros Hpre. rewrite (download_app _ _ _ _ _ _ _ Hpre). simpl.
    unfold bind, CacheManager._download_cache. rewrite Hign.
    unfold bind, CacheManager._get_local_cache_archive_path, bind, call, ret.
    simpl. rewrite Hdir.
    unfold CacheManager._get_remote_directory. rewrite Hdef. reflexivity.
  - intros Hpre [content Hfile]. rewrite (upload_app _ _ _ _ _ _ _ Hpre). simpl.
    unfold bind, CacheManager._upload_cache. rewrite Hign.
    unfold bind, CacheManager._get_local_cache_archive_path, bind, call, ret, get_fs.
    simpl. rewrite Hdir.
    change (fs (emit EvLocalCacheDirectory st)) with (fs st).
    rewrite Hfile.
    unfold CacheManager._get_remote_directory. rewrite Hdef. reflexivity.
  - intros Hpre Hfile. rewrite (upload_app _ _ _ _ _ _ _ Hpre). simpl.
    unfold bind at 1. unfold CacheManager._upload_cache. rewrite Hign.
    unfold bind, CacheManager._get_local_cache_archive_path, bind, call, ret, get_fs.
    simpl. rewrite Hdir.
    change (fs (emit EvLocalCacheDirectory st)) with (fs st).
    rewrite Hfile. reflexivity.
Qed.

Lemma unknown_cache_is_configuration_error_witness :
  let cr := Scenario.cr_of "A" in
  let caches := def_caches Scenario.defs in
  let st := Scenario.st_running "A" in
  CacheManager.download Scenario.env_ok cr caches ["maven"; "pip"] st
  = (Raise (ValueError "Invalid cache: maven"), emit EvLocalCacheDirectory st).
Proof.
  intros cr caches st.
  refine (proj1 (unknown_cache_is_configuration_error Scenario.env_ok cr caches
                   [] ["pip"] "maven" st st "/home/u/.cache/pipeline-runner"
                   _ _ _) _).
  - vm_compute. reflexivity.
  - vm_compute. reflexivity.
  - reflexivity.
  - reflexivity.
Defined.

(** C6, as stated, fails: uploading a cache that is not defined and not
    ignored, when no local archive of it exists, raises nothing; the name
    is skipped with an informational notice. *)
Lemma upload_unknown_cache_skipped :
  let cr := Scenario.cr_of "A" in
  let caches := def_caches Scenario.defs in
  CacheManager._should_ignore "maven" = false
  /\ caches !! "maven" = None
  /\ CacheManager.upload Scenario.env_ok cr caches ["maven"] Scenario.st0
     = (Ok tt,
        {| trace := [EvLocalCacheDirectory;
                     EvLog INFO "Cache '%s': Not found: Skipping" [AStr "maven"]];
           fs := ∅; self_services_manager := None;
           self_container_runner := None |})
  /\ ~ (exists e st',
          CacheManager.upload Scenario.env_ok cr caches ["maven"] Scenario.st0
          = (Raise e, st')).
Proof.
  assert (Hrun :
    CacheManager.upload Scenario.env_ok (Scenario.cr_of "A")
      (def_caches Scenario.defs) ["maven"] Scenario.st0
    = (Ok tt,
        {| trace := [EvLocalCacheDirectory;
                     EvLog INFO "Cache '%s': Not found: Skipping" [AStr "maven"]];
           fs := ∅; self_services_manager := None;
           self_container_runner := None |})) by (vm_compute; reflexivity).
  intros cr caches. split; [vm_compute; reflexivity|].
  split; [vm_compute; reflexivity|]. split; [exact Hrun|].
  intros (e & st' & Hraise). unfold cr, caches in Hraise.
  rewrite Hrun in Hraise. discriminate.
Qed.

(** The state in which [_download_cache] asks for the archive: [opened] is
    the history up to and including the opening of the local archive for
    writing, and the archive is empty. *)
Definition opened_state (st : State) (opened : list Event) (file : string) : State :=
  {| trace := opened; fs := <[file := []]> (fs st);
     self_services_manager := self_services_manager st;
     self_container_runner := self_container_runner st |}.

Lemma download_cache_opened
    (E : Env) (cr : ContainerRunner) (defs : gmap string Cache)
    (n : string) (c : Cache) (st : State) (dir remote : string) :
  CacheManager._should_ignore n = false ->
  defs !! n = Some c ->
  get_local_cache_directory E (trace st) = Ok dir ->
  expand_path E cr (path c) (trace st ++ [EvLocalCacheDirectory]) = Ok remote ->
  let local_archive := os_path_join dir (n +:+ ".tar") in
  let notices :=
    (if String.eqb remote EmptyString
     then [EvLog INFO "Cache '%s': Ignoring" [AStr n]] else [])
    ++ [EvLog INFO "Cache '%s': Downloading" [AStr n]] in
  let opened :=
    trace st ++ [EvLocalCacheDirectory; EvExpandPath cr (path c)]
      ++ notices ++ [EvOpen local_archive "wb"] in
  CacheManager._download_cache E cr defs n st
  = (let! a := call (EvGetArchive cr remote) (get_archive E cr remote) in
     let! size := CacheManager.write_chunks local_archive (chunks a) 0 in
     match stream_error a with
     | Some e => raise e
     | None => log INFO "Cache '%s': Downloaded %s in %.3fs"
                   [AStr n; ASize size; AElapsed]
     end) (opened_state st opened local_archive).
Proof.
  intros Hign Hdef Hdir Hexp local_archive notices opened.
  unfold CacheManager._download_cache. rewrite Hign.
  unfold CacheManager._get_local_cache_archive_path,
    CacheManager._get_remote_directory.
  rewrite Hdef.
  unfold bind at 1. unfold bind at 1. unfold call at 1, ret at 1. rewrite Hdir.
  unfold bind at 1. unfold call at 1. simpl trace. rewrite Hexp.
  fold local_archive.
  subst opened notices.
  destruct (String.eqb remote EmptyString);
    unfold bind, call, log, ret, raise, open_wb, opened_state, emit; simpl;
    rewrite <- ?app_assoc; simpl; reflexivity.
Qed.

(** C10.  For a defined cache that is not ignored, [_download_cache]
    opens the local archive for writing, which truncates it, before it
    asks the container for the archive: the [get_archive] call sees the
    open in its history.  So whatever the local archive held before, when
    [get_archive] raises the file is left empty, and when the chunk stream
    raises part-way the file holds the chunks received so far; in both
    cases the error leaves [_download_cache] and the earlier archive is
    gone.  Only a stream that ends normally leaves a complete archive. *)
Theorem download_truncates_before_transfer
    (E : Env) (cr : ContainerRunner) (defs : gmap string Cache)
    (n : string) (c : Cache) (st : State) (dir remote : string) (prior : bytes)
    (r : Res unit) (st' : State) :
  CacheManager._should_ignore n = false ->
  defs !! n = Some c ->
  get_local_cache_directory E (trace st) = Ok dir ->
  expand_path E cr (path c) (trace st ++ [EvLocalCacheDirectory]) = Ok remote ->
  let local_archive := os_path_join dir (n +:+ ".tar") in
  fs st !! local_archive = Some prior ->
  CacheManager._download_cache E cr defs n st = (r, st') ->
  let notices :=
    (if String.eqb remote EmptyString
     then [EvLog INFO "Cache '%s': Ignoring" [AStr n]] else [])
    ++ [EvLog INFO "Cache '%s': Downloading" [AStr n]] in
  let opened :=
    trace st ++ [EvLocalCacheDirectory; EvExpandPath cr (path c)]
      ++ notices ++ [EvOpen local_archive "wb"] in
  (exists rest, trace st' = opened ++ EvGetArchive cr remote :: rest)
  /\ (forall e, get_archive E cr remote opened = Raise e ->
        r = Raise e /\ fs st' !! local_archive = Some [])
  /\ (forall a e, get_archive E cr remote opened = Ok a ->
        stream_error a = Some e ->
        r = Raise e /\ fs st' !! local_archive = Some (concat (chunks a)))
  /\ (forall a, get_archive E cr remote opened = Ok a ->
        stream_error a = None ->
        r = Ok tt /\ fs st' !! local_archive = Some (concat (chunks a))).
Proof.
  intros Hign Hdef Hdir Hexp local_archive Hprior Hrun notices opened.
  rewrite (download_cache_opened E cr defs n c st dir remote Hign Hdef Hdir Hexp)
    in Hrun.
  fold local_archive notices opened in Hrun.
  unfold bind, call in Hrun. simpl in Hrun.
  destruct (get_archive E cr remote opened) as [a|e].
  - destruct (write_chunks_spec local_archive (chunks a) 0
                (emit (EvGetArchive cr remote) (opened_state st opened local_archive)) [])
      as (stw & Hw & Htr & Hfs & _); [ simpl; apply lookup_insert_eq |].
    rewrite Hw in Hrun. simpl in Hfs, Htr.
    destruct (stream_error a) as [e|] eqn:Herr.
    + injection Hrun as <- <-. rewrite Htr.
      split; [by exists []|]. split; [done|].
      split; [intros a' e' [= <-]; rewrite Herr; intros [= <-]; done|].
      intros a' [= <-]. by rewrite Herr.
    + injection Hrun as <- <-. simpl. rewrite Htr.
      split; [rewrite <- app_assoc; eauto|]. split; [done|].
      split; [intros a' e' [= <-]; by rewrite Herr|].
      intros a' [= <-] _. done.
  - injection Hrun as <- <-. simpl.
    split; [by exists []|].
    split; [intros e' [= <-]; split; [done|apply lookup_insert_eq]|].
    split; intros; discriminate.
Qed.

Lemma download_truncates_before_transfer_witness :
  let E := Scenario.mk_env Scenario.script_status Scenario.command_ok (Ok tt)
             (Raise (ExternalError "docker: get_archive failed")) in
  let st := Scenario.st_running "A" in
  let run := CacheManager._download_cache E (Scenario.cr_of "A")
               (def_caches Scenario.defs) "pip" st in
  fs st !! Scenario.pip_tar = Some Scenario.old_archive
  /\ run.1 = Raise (ExternalError "docker: get_archive failed")
  /\ fs run.2 !! Scenario.pip_tar = Some [].
Proof.
  intros E st run. split; [vm_compute; reflexivity|].
  refine (proj1 (proj2
    (download_truncates_before_transfer E (Scenario.cr_of "A")
       (def_caches Scenario.defs) "pip" {| path := "/root/.cache/pip" |} st
       "/home/u/.cache/pipeline-runner" "/root/.cache/pip" Scenario.old_archive
       run.1 run.2 _ _ _ _ _ (surjective_pairing _))) _ _).
  - vm_compute. reflexivity.
  - vm_compute. reflexivity.
  - reflexivity.
  - reflexivity.
  - vm_compute. reflexivity.
  - reflexivity.
Defined.

(** A run whose result is known ends in the state it ends in. *)
Lemma run_result {A} (p : Res A * State) (r : Res A) :
  p.1 = r -> p = (r, p.2).
Proof. destruct p. simpl. by intros ->. Qed.

(** ** The pipeline driver *)

Section Driver.

Variable E : Env.
Variable config : Config.
Variable d : CloneSettings.
Variable defs : Pipelines.
Variable _uuid : string.

(** One turn of the loop of [_execute_pipeline]: draw the step's
    identifier, build the runner, run it. *)
Definition pipeline_turn (step : Node) : M (option Z) :=
  let! step_uuid := new_uuid E in
  StepRunnerFactory_get_run E config d defs step _uuid step_uuid.

Lemma execute_pipeline_cons step rest st :
  _execute_pipeline E config d defs _uuid (step :: rest) st
  = (let! exit_code := pipeline_turn step in
     if truthy exit_code then ret exit_code
     else _execute_pipeline E config d defs _uuid rest) st.
Proof.
  simpl. unfold pipeline_turn, bind, new_uuid, call. simpl.
  destruct (StepRunnerFactory_get_run _ _ _ _ _ _ _ _) as [[rc|e] st1]; reflexivity.
Qed.

(** When the steps run so far all passed, the driver goes on with the
    rest of the list from the state they left. *)
Lemma execute_pipeline_app pre post st st1 :
  _execute_pipeline E config d defs _uuid pre st = (Ok None, st1) ->
  _execute_pipeline E config d defs _uuid (pre ++ post) st
  = _execute_pipeline E config d defs _uuid post st1.
Proof.
  revert st. induction pre as [|s pre IH]; intros st Hpre.
  - simpl in Hpre. unfold ret in Hpre. by injection Hpre as <-.
  - rewrite <- app_comm_cons, execute_pipeline_cons.
    rewrite execute_pipeline_cons in Hpre. unfold bind in *.
    destruct (pipeline_turn s st) as [[rc|e] st2]; [|done].
    destruct (truthy rc) eqn:Hrc.
    + unfold ret in Hpre. injection Hpre as -> <-. done.
    + by apply IH.
Qed.

(** The steps of a list are run one after the other, in the order of
    the list, and each of them passes: it returns, with exit code 0 or
    with none (a skipped step). *)
Inductive steps_pass : list Node -> State -> State -> Prop :=
| pass_nil st : steps_pass [] st st
| pass_cons step rest st rc st1 st2 :
    pipeline_turn step st = (Ok rc, st1) ->
    truthy rc = false ->
    steps_pass rest st1 st2 ->
    steps_pass (step :: rest) st st2.

Lemma steps_pass_execute steps st st1 :
  steps_pass steps st st1 ->
  _execute_pipeline E config d defs _uuid steps st = (Ok None, st1).
Proof.
  induction 1 as [st|step rest st rc st1 st2 Hturn Hrc _ IH]; [reflexivity|].
  rewrite execute_pipeline_cons. unfold bind. by rewrite Hturn, Hrc.
Qed.

End Driver.

(** C1.  The driver runs the top-level steps in the order of the list.
    When the steps of [pre] have run in order and all passed, and the next
    step [s] returns a non-zero exit code [c], the run returns [c] and
    ends in the state that [s] left: no step of [post] is run. *)
Theorem first_failure_wins
    (E : Env) (config : Config) (d : CloneSettings) (defs : Pipelines)
    (_uuid : string) (pre post : list Node) (s : Node) (c : Z)
    (st st1 st2 : State) :
  steps_pass E config d defs _uuid pre st st1 ->
  pipeline_turn E config d defs _uuid s st1 = (Ok (Some c), st2) ->
  c <> 0 ->
  _execute_pipeline E config d defs _uuid (pre ++ s :: post) st
  = (Ok (Some c), st2).
Proof.
  intros Hpre Hs Hc. apply steps_pass_execute in Hpre.
  rewrite (execute_pipeline_app _ _ _ _ _ _ _ _ _ Hpre).
  rewrite execute_pipeline_cons. unfold bind. rewrite Hs. simpl.
  apply Z.eqb_neq in Hc. by rewrite Hc.
Qed.

Lemma first_failure_wins_witness :
  let A := StepNode (Scenario.mk_step "A" 0) in
  let B := StepNode (Scenario.mk_step "B" 5) in
  let C := StepNode (Scenario.mk_step "C" 0) in
  let out := _execute_pipeline Scenario.env_ok Scenario.cfg
               spec_CloneSettings_default Scenario.defs "run-1"
               [A; B; C] Scenario.st0 in
  out.1 = Ok (Some 5)
  /\ running_steps (trace out.2) = ["A"; "B"].
Proof.
  intros A B C out. split.
  - assert (H1 : (pipeline_turn Scenario.env_ok Scenario.cfg
                    spec_CloneSettings_default Scenario.defs "run-1" A
                    Scenario.st0).1 = Ok (Some 0))
      by (vm_compute; reflexivity).
    assert (H2 : (pipeline_turn Scenario.env_ok Scenario.cfg
                    spec_CloneSettings_default Scenario.defs "run-1" B
                    (pipeline_turn Scenario.env_ok Scenario.cfg
                       spec_CloneSettings_default Scenario.defs "run-1" A
                       Scenario.st0).2).1 = Ok (Some 5))
      by (vm_compute; reflexivity).
    assert (H3 : (5 : Z) <> 0) by discriminate.
    exact (f_equal fst
             (first_failure_wins Scenario.env_ok Scenario.cfg
                spec_CloneSettings_default Scenario.defs "run-1"
                [A] [C] B 5 Scenario.st0 _ _
                (pass_cons _ _ _ _ _ A [] _ _ _ _
                   (run_result _ _ H1) eq_refl (pass_nil _ _ _ _ _ _))
                (run_result _ _ H2) H3)).
  - vm_compute. reflexivity.
Defined.

(** ** The parallel step runner *)

(** The children run one after the other, none raising: the exit codes
    they returned, in order, and the state the last one left. *)
Fixpoint run_children (run : Node -> M (option Z)) (steps : list Node) (st : State)
  : option (list (option Z) * State) :=
  match steps with
  | [] => Some ([], st)
  | s :: rest =>
      match run s st with
      | (Ok rc, st1) =>
          match run_children run rest st1 with
          | Some (rcs, st2) => Some (rc :: rcs, st2)
          | None => None
          end
      | (Raise _, _) => None
      end
  end.

(** The result in the words of the specification: the last-seen non-zero
    exit code among the children, or 0 if all children succeed. *)
Definition last_nonzero (rcs : list (option Z)) : Z :=
  default 0 (last (filter (fun c : Z => c <> 0) (omap id rcs))).

Lemma last_nonzero_cons rc rcs acc :
  default acc (last (filter (fun c : Z => c <> 0) (omap id (rc :: rcs))))
  = default (if truthy rc then default 0 rc else acc)
      (last (filter (fun c : Z => c <> 0) (omap id rcs))).
Proof.
  destruct rc as [c|]; simpl; [|done].
  rewrite filter_cons. destruct (decide (c <> 0)) as [Hc|Hc].
  - apply Z.eqb_neq in Hc. rewrite Hc. simpl.
    destruct (filter _ _) as [|x l] eqn:Hf; [done|].
    rewrite last_cons. by destruct (last (x :: l)) eqn:Hl;
      [| apply last_None in Hl].
  - assert (c = 0) as -> by lia. done.
Qed.

Lemma parallel_loop_children run pu su steps acc st rcs st' :
  run_children (fun s => run s pu su) steps st = Some (rcs, st') ->
  parallel_loop run pu su steps acc st
  = (Ok (Some (default acc
                 (last (filter (fun c : Z => c <> 0) (omap id rcs))))), st').
Proof.
  revert acc st rcs. induction steps as [|s steps IH]; intros acc st rcs Hrun.
  - simpl in Hrun. injection Hrun as <- <-. reflexivity.
  - simpl in Hrun. simpl. unfold bind.
    destruct (run s pu su st) as [[rc|e] st1]; [|done].
    destruct (run_children _ steps st1) as [[rcs1 st2]|] eqn:Hrest; [|done].
    injection Hrun as <- <-.
    rewrite (IH _ _ _ Hrest). by rewrite last_nonzero_cons.
Qed.

(** C4.  The parallel step runner runs every child in the declared order
    whatever exit codes the earlier children returned: when the children,
    run one after the other, return the exit codes [rcs], the group
    returns the last non-zero one of them, or 0 when there is none, and
    ends in the state the last child left. *)
Theorem parallel_runs_all_children
    (E : Env) (config : Config) (d : CloneSettings) (defs : Pipelines)
    (pname : string) (steps : list Node) (pu su : string)
    (st : State) (rcs : list (option Z)) (st' : State) :
  run_children (fun s => StepRunnerFactory_get_run E config d defs s pu su)
    steps (StepRunner_init st).2 = Some (rcs, st') ->
  StepRunnerFactory_get_run E config d defs (ParallelNode pname steps) pu su st
  = (Ok (Some (last_nonzero rcs)), st')
  /\ length rcs = length steps.
Proof.
  intros Hrun. split.
  - simpl. unfold bind at 1.
    rewrite (surjective_pairing (StepRunner_init st)).
    change (StepRunner_init st).1 with (@Ok unit tt).
    unfold ParallelStepRunner_run.
    by apply parallel_loop_children.
  - clear -Hrun. revert rcs Hrun. generalize (StepRunner_init st).2.
    induction steps as [|s steps IH]; intros st0 rcs Hrun; simpl in Hrun.
    + by injection Hrun as <- <-.
    + destruct (StepRunnerFactory_get_run _ _ _ _ s _ _ _) as [[rc|e] st1]; [|done].
      destruct (run_children _ steps st1) as [[rcs1 st2]|] eqn:Hrest; [|done].
      injection Hrun as <- <-. simpl. f_equal. eauto.
Qed.

Lemma parallel_runs_all_children_witness :
  let X := StepNode (Scenario.mk_step "X" 0) in
  let Y := StepNode (Scenario.mk_step "Y" 3) in
  let Z := StepNode (Scenario.mk_step "Z" 0) in
  let out := StepRunnerFactory_get_run Scenario.env_ok Scenario.cfg
               spec_CloneSettings_default Scenario.defs
               (ParallelNode "group" [X; Y; Z]) "run-1" "step-1" Scenario.st0 in
  out.1 = Ok (Some 3)
  /\ running_steps (trace out.2) = ["X"; "Y"; "Z"].
Proof.
  intros X Y Z out. split.
  - assert (H : fst <$> run_children
                  (fun s => StepRunnerFactory_get_run Scenario.env_ok Scenario.cfg
                              spec_CloneSettings_default Scenario.defs s
                              "run-1" "step-1")
                  [X; Y; Z] (StepRunner_init Scenario.st0).2
                = Some [Some 0; Some 3; Some 0])
      by (vm_compute; reflexivity).
    destruct (run_children _ _ _) as [[rcs st']|] eqn:Hrun; [|discriminate].
    injection H as ->.
    exact (f_equal fst
             (proj1 (parallel_runs_all_children Scenario.env_ok Scenario.cfg
                       spec_CloneSettings_default Scenario.defs "group" [X; Y; Z]
                       "run-1" "step-1" Scenario.st0 _ _ Hrun))).
  - vm_compute. reflexivity.
Defined.

(** ** The step runner *)

(** The state in which the [try] block of [run] starts: the two notices
    of a step that is not skipped have been logged. *)
Definition step_started (s : Step) (su : string) (st : State) : State :=
  emit (EvLog DEBUG "Step ID: %s" [AStr su])
    (emit (EvLog INFO "Running step: %s" [AStr (name s)]) st).

(** The services manager that [run] builds for a step. *)
Definition services_manager_of (E : Env) (config : Config) (s : Step)
    (defs : Pipelines) : ServicesManager :=
  {| sm_services := services s;
     sm_definitions := def_services defs;
     sm_size := size s;
     sm_data_volume_name :=
       (project_slug config +:+ "-step-" +:+ slugify E (name s)) +:+ "-data" |}.

(** When Acquire completes, both handles are stored, the services and
    the container have been started, in that order, and nothing else
    happened. *)
Lemma run_acquire_ok E config s defs st cr st1 :
  run_acquire E config s defs st = (Ok cr, st1) ->
  let sm := services_manager_of E config s defs in
  self_services_manager st1 = Some sm
  /\ self_container_runner st1 = Some cr
  /\ fs st1 = fs st
  /\ trace st1 = trace st ++ [EvStartServices sm; EvGetServicesNames sm;
                              EvContainerStart cr].
Proof.
  unfold run_acquire, services_manager_of.
  unfold bind, call, ret, set_services_manager, set_container_runner. simpl.
  destruct (start_services E _ _) as [[]|e]; [|done].
  destruct (get_services_names E _ _) as [names|e]; [|done].
  destruct (container_start E _ _) as [[]|e]; [|done].
  intros [= <- <-]. simpl. rewrite <- !app_assoc. done.
Qed.

(** The [finally] block, from a state in which both handles are set. *)
Lemma run_release_spec E st sm cr :
  self_services_manager st = Some sm ->
  self_container_runner st = Some cr ->
  run_release E st
  = match stop_services E sm (trace st) with
    | Raise e => (Raise e, emit (EvStopServices sm) st)
    | Ok _ => (container_stop E cr (trace st ++ [EvStopServices sm]),
               emit (EvContainerStop cr) (emit (EvStopServices sm) st))
    end.
Proof.
  intros Hsm Hcr.
  unfold run_release, bind, call, get_services_manager, get_container_runner.
  rewrite Hsm. simpl. destruct (stop_services E sm (trace st)); [|done].
  simpl. rewrite Hcr. reflexivity.
Qed.

(** Events of Teardown: the teardown notice, a cache archive taken out
    of the container, an artifact download. *)
Definition is_teardown_event (ev : Event) : bool :=
  match ev with
  | EvArtifactDownload _ _ _ _ | EvGetArchive _ _ => true
  | EvLog _ fmt _ => String.eqb fmt "Build teardown: '%s'"
  | _ => false
  end.

(** The checkout fails: the clone command returns a non-zero exit code,
    or it passes and the reset command returns a non-zero exit code.
    [failed] are the commands issued and [msg] the message of the
    exception raised. *)
Definition checkout_fails (E : Env) (cr : ContainerRunner) (clone_argv : list string)
    (h : list Event) (failed : list Event) (msg : string) : Prop :=
  (exists res,
      run_command E cr (CmdArgv clone_argv) h = Ok res
      /\ exit_code_of res <> 0
      /\ failed = [EvRunCommand cr (CmdArgv clone_argv)]
      /\ msg = "Error cloning repository")
  \/ (exists res res',
      run_command E cr (CmdArgv clone_argv) h = Ok res
      /\ command_truthy res = false
      /\ run_command E cr (CmdArgv reset_cmd)
           (h ++ [EvRunCommand cr (CmdArgv clone_argv)]) = Ok res'
      /\ exit_code_of res' <> 0
      /\ failed = [EvRunCommand cr (CmdArgv clone_argv);
                   EvRunCommand cr (CmdArgv reset_cmd)]
      /\ msg = "Error resetting to HEAD commit").

Lemma nonzero_exit_truthy res : exit_code_of res <> 0 -> command_truthy res = true.
Proof. destruct res; simpl; [|done]. intros H. by apply Z.eqb_neq in H as ->. Qed.

Lemma clone_repository_fails E config d s defs st cr branch failed msg :
  self_container_runner st = Some cr ->
  default false (_should_clone d s defs) = true ->
  get_git_current_branch E (trace st) = Ok branch ->
  checkout_fails E cr (clone_cmd config d s defs branch)
    (trace st ++ [EvGitCurrentBranch]) failed msg ->
  exists st',
    _clone_repository E config d s defs st = (Raise (PyException msg), st')
    /\ trace st' = trace st ++ EvGitCurrentBranch :: failed
    /\ fs st' = fs st
    /\ self_services_manager st' = self_services_manager st
    /\ self_container_runner st' = self_container_runner st.
Proof.
  intros Hcr Hclone Hbranch Hfail.
  unfold _clone_repository. rewrite Hclone. simpl.
  unfold bind, call, the_container_runner, raise, ret. rewrite Hbranch. simpl.
  rewrite Hcr.
  destruct Hfail as [(res & Hres & Hne & -> & ->)
                    |(res & res' & Hres & Hfalse & Hres' & Hne & -> & ->)].
  - simpl. rewrite Hres, (nonzero_exit_truthy _ Hne).
    eexists. split; [reflexivity|]. simpl. by rewrite <- app_assoc.
  - simpl. rewrite Hres, Hfalse. simpl. rewrite Hres', (nonzero_exit_truthy _ Hne).
    eexists. split; [reflexivity|]. simpl. by rewrite <- !app_assoc.
Qed.

(** [run] of a step that is not skipped: the guarded block, then the
    closing notice when the block returned. *)
Lemma StepRunner_run_unfold E config d s pu su defs st :
  _should_run config s = true ->
  StepRunner_run E config d s pu su defs st
  = match try_finally
            (let! cr := run_acquire E config s defs in
             run_lifecycle E config d s pu su defs cr)
            (run_release E) (step_started s su st) with
    | (Ok exit_code, st') =>
        (Ok (Some exit_code),
         emit (EvLog INFO "Step '%s' executed in %.3fs with exit code: %s"
                 [AStr (name s); AElapsed; AInt exit_code]) st')
    | (Raise e, st') => (Raise e, st')
    end.
Proof.
  intros Hrun. unfold StepRunner_run. rewrite Hrun. simpl.
  unfold bind, log, ret, step_started.
  destruct (try_finally _ _ _) as [[c|e] st']; reflexivity.
Qed.

(** C5, as the code has it.  Take a step that is not skipped, whose
    services and container were started, with checkout enabled, and whose
    clone or reset command returns a non-zero exit code.  The step raises:
    Setup ends there, the script is not run, and Teardown is not run
    either, so neither cache persist nor artifact persist is attempted.
    Release runs before the error leaves [run]: the services are stopped,
    and when that returns the container is stopped; when both stops
    return, the error that leaves the step is the checkout error. *)
Theorem checkout_error_releases_without_teardown
    (E : Env) (config : Config) (d : CloneSettings) (s : Step)
    (pu su : string) (defs : Pipelines) (st st1 : State)
    (cr : ContainerRunner) (branch : string) (failed : list Event) (msg : string) :
  _should_run config s = true ->
  run_acquire E config s defs (step_started s su st) = (Ok cr, st1) ->
  default false (_should_clone d s defs) = true ->
  let setup := trace st1 ++ [EvLog INFO "Build setup: '%s'" [AStr (name s)]] in
  get_git_current_branch E setup = Ok branch ->
  checkout_fails E cr (clone_cmd config d s defs branch)
    (setup ++ [EvGitCurrentBranch]) failed msg ->
  let sm := services_manager_of E config s defs in
  let aborted := setup ++ EvGitCurrentBranch :: failed in
  exists e released st',
    StepRunner_run E config d s pu su defs st = (Raise e, st')
    /\ trace st' = aborted ++ EvStopServices sm :: released
    /\ Forall (fun ev => is_teardown_event ev = false) (new_events st st')
    /\ (stop_services E sm aborted = Ok tt ->
        released = [EvContainerStop cr]
        /\ (container_stop E cr (aborted ++ [EvStopServices sm]) = Ok tt ->
            e = PyException msg)).
Proof.
  intros Hrun Hacq Hclone setup Hbranch Hfail sm aborted.
  destruct (run_acquire_ok _ _ _ _ _ _ _ Hacq) as (Hsm & Hcr & Hfs & Htr).
  fold sm in Hsm, Htr.
  destruct (clone_repository_fails E config d s defs
              (emit (EvLog INFO "Build setup: '%s'" [AStr (name s)]) st1)
              cr branch failed msg Hcr Hclone Hbranch Hfail)
    as (st2 & Hcl & Htr2 & Hfs2 & Hsm2 & Hcr2).
  simpl in Htr2, Hsm2, Hcr2. fold setup in Htr2.
  assert (Hbody :
    (let! cr := run_acquire E config s defs in
     run_lifecycle E config d s pu su defs cr) (step_started s su st)
    = (Raise (PyException msg), st2)).
  { unfold bind at 1. rewrite Hacq.
    unfold run_lifecycle, _build_setup.
    unfold bind at 1. unfold bind at 1. unfold log at 1.
    unfold bind at 1. rewrite Hcl. reflexivity. }
  assert (Hnew : forall rel st',
             trace st' = aborted ++ rel ->
             Forall (fun ev => is_teardown_event ev = false) rel ->
             Forall (fun ev => is_teardown_event ev = false) (new_events st st')).
  { intros rel st' Ht Hrel.
    rewrite (new_events_app st st'
               (([EvLog INFO "Running step: %s" [AStr (name s)];
                  EvLog DEBUG "Step ID: %s" [AStr su];
                  EvStartServices sm; EvGetServicesNames sm; EvContainerStart cr;
                  EvLog INFO "Build setup: '%s'" [AStr (name s)];
                  EvGitCurrentBranch] ++ failed) ++ rel)).
    - apply Forall_app. split; [|done].
      apply Forall_app. split; [by repeat constructor|].
      destruct Hfail as [(? & _ & _ & -> & _)|(? & ? & _ & _ & _ & _ & -> & _)];
        by repeat constructor.
    - rewrite Ht. subst aborted setup. rewrite Htr. simpl.
      by rewrite <- !app_assoc. }
  rewrite (StepRunner_run_unfold _ _ _ _ _ _ _ _ Hrun).
  unfold try_finally. rewrite Hbody.
  rewrite (run_release_spec E st2 sm cr) by congruence.
  rewrite Htr2. fold aborted.
  destruct (stop_services E sm aborted) as [[]|e1] eqn:Hstop.
  - destruct (container_stop E cr (aborted ++ [EvStopServices sm])) as [[]|e2] eqn:Hcstop.
    + exists (PyException msg), [EvContainerStop cr],
        (emit (EvContainerStop cr) (emit (EvStopServices sm) st2)).
      assert (Ht : trace (emit (EvContainerStop cr) (emit (EvStopServices sm) st2))
                   = aborted ++ [EvStopServices sm; EvContainerStop cr]).
      { simpl. rewrite Htr2. fold aborted. by rewrite <- app_assoc. }
      split; [reflexivity|]. split; [exact Ht|].
      split; [apply (Hnew _ _ Ht); by repeat constructor | by auto].
    + exists e2, [EvContainerStop cr],
        (emit (EvContainerStop cr) (emit (EvStopServices sm) st2)).
      assert (Ht : trace (emit (EvContainerStop cr) (emit (EvStopServices sm) st2))
                   = aborted ++ [EvStopServices sm; EvContainerStop cr]).
      { simpl. rewrite Htr2. fold aborted. by rewrite <- app_assoc. }
      split; [reflexivity|]. split; [exact Ht|].
      split; [apply (Hnew _ _ Ht); by repeat constructor |].
      intros _. split; [done|intros; discriminate].
  - exists e1, [], (emit (EvStopServices sm) st2).
    assert (Ht : trace (emit (EvStopServices sm) st2) = aborted ++ [EvStopServices sm]).
    { simpl. rewrite Htr2. by fold aborted. }
    split; [reflexivity|]. split; [exact Ht|].
    split; [apply (Hnew _ _ Ht); by repeat constructor | intros; discriminate].
Qed.

Lemma checkout_error_releases_without_teardown_witness :
  let s := Scenario.mk_step "A" 0 in
  let out := StepRunner_run Scenario.env_clone_fails Scenario.cfg
               spec_CloneSettings_default s "run-1" "step-1" Scenario.defs
               Scenario.st0 in
  out.1 = Raise (PyException "Error cloning repository")
  /\ Forall (fun ev => is_teardown_event ev = false) (trace out.2).
Proof.
  intros s out.
  assert (Hacq : (run_acquire Scenario.env_clone_fails Scenario.cfg s Scenario.defs
                    (step_started s "step-1" Scenario.st0)).1
                 = Ok (Scenario.cr_of "A")) by (vm_compute; reflexivity).
  destruct (checkout_error_releases_without_teardown
              Scenario.env_clone_fails Scenario.cfg spec_CloneSettings_default s
              "run-1" "step-1" Scenario.defs Scenario.st0 _ (Scenario.cr_of "A")
              "main"
              [EvRunCommand (Scenario.cr_of "A")
                 (CmdArgv (clone_cmd Scenario.cfg spec_CloneSettings_default s
                             Scenario.defs "main"))]
              "Error cloning repository"
              eq_refl (run_result _ _ Hacq) eq_refl eq_refl)
    as (e & released & st' & Heq & Htr & Hno & Hrel).
  - left. exists (ResCode 128). split; [reflexivity|]. split; [discriminate|].
    split; reflexivity.
  - unfold out. rewrite Heq. simpl. split.
    + f_equal. apply Hrel; reflexivity.
    + exact Hno.
Defined.

(** C5, as stated, fails: a clone command that exits with 128 aborts
    the step, the services and the container are stopped, but the step's
    artifacts are never downloaded. *)
Lemma checkout_error_skips_artifact_persist :
  let s := Scenario.mk_step "A" 0 in
  let out := StepRunner_run Scenario.env_clone_fails Scenario.cfg
               spec_CloneSettings_default s "run-1" "step-1" Scenario.defs
               Scenario.st0 in
  artifacts s = ["dist/**"]
  /\ out.1 = Raise (PyException "Error cloning repository")
  /\ List.filter is_release (trace out.2)
     = [EvStopServices (Scenario.sm_of "A"); EvContainerStop (Scenario.cr_of "A")]
  /\ List.filter is_artifact_download (trace out.2) = []
  /\ ~ (exists cr pu su, EvArtifactDownload cr pu su (artifacts s) ∈ trace out.2).
Proof.
  intros s out.
  assert (Hnone : List.filter is_artifact_download (trace out.2) = [])
    by (vm_compute; reflexivity).
  split; [reflexivity|]. split; [vm_compute; reflexivity|].
  split; [vm_compute; reflexivity|]. split; [exact Hnone|].
  intros (cr & pu & su & Hin).
  apply list_elem_of_In in Hin.
  assert (Hf : In (EvArtifactDownload cr pu su (artifacts s))
                 (List.filter is_artifact_download (trace out.2)))
    by (apply filter_In; split; [exact Hin | reflexivity]).
  rewrite Hnone in Hf. exact Hf.
Qed.

(** ** Release of what was acquired *)

(** [steady m]: [m] leaves the two handles of the runner alone. *)
Definition steady {A} (m : M A) : Prop :=
  forall st,
    self_services_manager (m st).2 = self_services_manager st
    /\ self_container_runner (m st).2 = self_container_runner st.

Lemma steady_bind {A B} (m : M A) (k : A -> M B) :
  steady m -> (forall a, steady (k a)) -> steady (bind m k).
Proof.
  intros Hm Hk st. unfold bind. destruct (Hm st) as [H1 H2].
  destruct (m st) as [[a|e] st1]; simpl in *; [|done].
  destruct (Hk a st1) as [H3 H4]. split; congruence.
Qed.

Lemma steady_same {A} (m : M A) :
  (forall st, self_services_manager (m st).2 = self_services_manager st) ->
  (forall st, self_container_runner (m st).2 = self_container_runner st) ->
  steady m.
Proof. intros H1 H2 st. auto. Qed.

Ltac steady_step :=
  first
    [ apply steady_bind; [ | intros ]
    | apply steady_same; intros; reflexivity
    | match goal with
      | |- steady (if ?b then _ else _) => destruct b
      | |- steady (match ?x with _ => _ end) => destruct x
      | |- steady (let '(_, _) := ?x in _) => destruct x
      end ].

Lemma steady_the_container_runner : steady the_container_runner.
Proof.
  intros st. unfold the_container_runner.
  destruct (self_container_runner st) eqn:H; simpl; auto.
Qed.

Lemma steady_write_chunks file data size :
  steady (CacheManager.write_chunks file data size).
Proof.
  revert size. induction data as [|c data IH]; intros size; simpl.
  - by apply steady_same.
  - apply steady_bind; [by apply steady_same | intros; apply IH].
Qed.

Lemma steady_upload E cr defs names : steady (CacheManager.upload E cr defs names).
Proof.
  induction names as [|n names IH]; simpl; [by apply steady_same|].
  apply steady_bind; [|intros; apply IH].
  unfold CacheManager._upload_cache, CacheManager._get_local_cache_archive_path,
    CacheManager._get_remote_directory.
  repeat first [ done | steady_step ].
Qed.

Lemma steady_download E cr defs names : steady (CacheManager.download E cr defs names).
Proof.
  induction names as [|n names IH]; simpl; [by apply steady_same|].
  apply steady_bind; [|intros; apply IH].
  unfold CacheManager._download_cache, CacheManager._get_local_cache_archive_path,
    CacheManager._get_remote_directory.
  pose proof steady_write_chunks.
  repeat first [ done | steady_step ].
Qed.

Lemma steady_run_lifecycle E config d s pu su defs cr :
  steady (run_lifecycle E config d s pu su defs cr).
Proof.
  unfold run_lifecycle, _build_setup, _build_teardown, _clone_repository,
    _upload_artifacts, _upload_caches, _download_caches, _download_artifacts,
    _stop_services.
  pose proof steady_the_container_runner.
  pose proof steady_upload. pose proof steady_download.
  repeat first [ done | steady_step ].
Qed.

Lemma lifecycle_events_filter pu su evs :
  Forall (lifecycle_event pu su) evs ->
  List.filter is_acquire evs = [] /\ List.filter is_release evs = [].
Proof.
  induction 1 as [|ev evs Hev _ [IH1 IH2]]; [done|].
  destruct ev; simpl in *; try done.
Qed.

(** Whatever happens between Acquire and Teardown -- a checkout error, a
    failed cache transfer, a script that raises -- as long as stopping the
    services returns, what a runner started is stopped exactly once,
    services first: either only the services were started, and only they
    are stopped, or the container was started as well, and both are
    stopped. *)
Lemma guaranteed_release_run
    (E : Env) (config : Config) (d : CloneSettings) (s : Step)
    (pu su : string) (defs : Pipelines) (st : State) :
  self_services_manager st = None ->
  self_container_runner st = None ->
  _should_run config s = true ->
  (forall sm h, stop_services E sm h = Ok tt) ->
  let out := StepRunner_run E config d s pu su defs st in
  let evs := new_events st out.2 in
  let sm := services_manager_of E config s defs in
  (List.filter is_acquire evs = [EvStartServices sm]
   /\ List.filter is_release evs = [EvStopServices sm])
  \/ (exists cr,
        List.filter is_acquire evs = [EvStartServices sm; EvContainerStart cr]
        /\ List.filter is_release evs = [EvStopServices sm; EvContainerStop cr]).
Proof.
  intros Hsm0 Hcr0 Hrun Hstop out evs sm. subst evs out.
  rewrite (StepRunner_run_unfold _ _ _ _ _ _ _ _ Hrun).
  unfold try_finally.
  destruct (run_acquire E config s defs (step_started s su st))
    as [[cr|e] st1] eqn:Hacq.
  - (* Acquire completed *)
    assert (Hbody :
      (let! cr := run_acquire E config s defs in
       run_lifecycle E config d s pu su defs cr) (step_started s su st)
      = run_lifecycle E config d s pu su defs cr st1)
      by (unfold bind; rewrite Hacq; reflexivity).
    rewrite Hbody. clear Hbody.
    destruct (run_acquire_ok _ _ _ _ _ _ _ Hacq) as (Hsm & Hcr & _ & Htr).
    fold sm in Hsm, Htr.
    pose proof (emits_run_lifecycle E pu su config d s defs cr st1)
      as (evs2 & Htr2 & Hev2).
    destruct (steady_run_lifecycle E config d s pu su defs cr st1) as [Hsm2 Hcr2].
    destruct (run_lifecycle E config d s pu su defs cr st1) as [r st2].
    simpl in Htr2, Hsm2, Hcr2.
    rewrite (run_release_spec E st2 sm cr) by congruence.
    rewrite Hstop.
    destruct (lifecycle_events_filter _ _ _ Hev2) as [Hacq2 Hrel2].
    right. exists cr.
    assert (Hbase : trace (emit (EvContainerStop cr) (emit (EvStopServices sm) st2))
              = trace st ++
                ([EvLog INFO "Running step: %s" [AStr (name s)];
                  EvLog DEBUG "Step ID: %s" [AStr su];
                  EvStartServices sm; EvGetServicesNames sm; EvContainerStart cr]
                 ++ evs2 ++ [EvStopServices sm; EvContainerStop cr])).
    { simpl. rewrite Htr2, Htr. simpl. by rewrite <- !app_assoc. }
    assert (Hfilter : forall closing st',
              trace st' = trace (emit (EvContainerStop cr)
                                   (emit (EvStopServices sm) st2)) ++ closing ->
              List.filter is_acquire closing = [] ->
              List.filter is_release closing = [] ->
              List.filter is_acquire (new_events st st')
                = [EvStartServices sm; EvContainerStart cr]
              /\ List.filter is_release (new_events st st')
                = [EvStopServices sm; EvContainerStop cr]).
    { intros closing st' Ht Hc1 Hc2.
      erewrite new_events_app by (rewrite Ht, Hbase, <- app_assoc; reflexivity).
      rewrite !List.filter_app, Hc1, Hc2. cbn [List.filter is_acquire is_release].
      rewrite Hacq2, Hrel2. done. }
    destruct (container_stop E cr (trace st2 ++ [EvStopServices sm])) as [[]|e];
      [destruct r as [c|e]|].
    + apply (Hfilter [EvLog INFO "Step '%s' executed in %.3fs with exit code: %s"
                        [AStr (name s); AElapsed; AInt c]]); done.
    + apply (Hfilter []); [|done..]. by rewrite app_nil_r.
    + apply (Hfilter []); [|done..]. by rewrite app_nil_r.
  - (* Acquire raised *)
    assert (Hbody :
      (let! cr := run_acquire E config s defs in
       run_lifecycle E config d s pu su defs cr) (step_started s su st)
      = (Raise e, st1))
      by (unfold bind; rewrite Hacq; reflexivity).
    rewrite Hbody. clear Hbody.
    revert Hacq. unfold run_acquire, step_started.
    unfold bind, call, ret, set_services_manager, set_container_runner. simpl.
    destruct (start_services E _ _) as [[]|e1].
    + destruct (get_services_names E _ _) as [names|e2].
      * destruct (container_start E _ _) as [[]|e3] eqn:Hcs; [done|].
        intros [= <- <-].
        unfold run_release, bind, call, get_services_manager, get_container_runner.
        simpl. rewrite Hstop. simpl.
        right. eexists. unfold new_events. simpl.
        destruct (container_stop E _ _); simpl;
          rewrite <- !app_assoc, drop_app_length; simpl; done.
      * intros [= <- <-].
        unfold run_release, bind, call, get_services_manager, get_container_runner.
        simpl. rewrite Hstop. simpl. rewrite Hcr0. simpl.
        left. unfold new_events. simpl.
        rewrite <- !app_assoc, drop_app_length. done.
    + intros [= <- <-].
      unfold run_release, bind, call, get_services_manager, get_container_runner.
      simpl. rewrite Hstop. simpl. rewrite Hcr0. simpl.
      left. unfold new_events. simpl.
      rewrite <- !app_assoc, drop_app_length. done.
Qed.

(** The same for the runner that the factory builds for a simple step. *)
Lemma guaranteed_release
    (E : Env) (config : Config) (d : CloneSettings) (s : Step)
    (pu su : string) (defs : Pipelines) (st : State) :
  _should_run config s = true ->
  (forall sm h, stop_services E sm h = Ok tt) ->
  let out := StepRunnerFactory_get_run E config d defs (StepNode s) pu su st in
  let evs := new_events st out.2 in
  let sm := services_manager_of E config s defs in
  (List.filter is_acquire evs = [EvStartServices sm]
   /\ List.filter is_release evs = [EvStopServices sm])
  \/ (exists cr,
        List.filter is_acquire evs = [EvStartServices sm; EvContainerStart cr]
        /\ List.filter is_release evs = [EvStopServices sm; EvContainerStop cr]).
Proof.
  intros Hrun Hstop. simpl. unfold bind at 1.
  change (StepRunner_init st) with (@Ok unit tt, (StepRunner_init st).2).
  cbv iota.
  apply (guaranteed_release_run E config d s pu su defs (StepRunner_init st).2);
    done.
Qed.

(** C3 does not hold of the code.  The [finally] block stops the services
    first and the container second, in sequence: when stopping the
    services raises, the block is left at once.  Here the step ran to the
    end with exit code 0, both resources were started, the service stop
    was attempted once and raised, and the container stop was never
    attempted; the error of the service stop leaves [run]. *)
Theorem service_stop_failure_suppresses_container_stop :
  let s := Scenario.mk_step "A" 0 in
  let out := StepRunner_run Scenario.env_stop_fails Scenario.cfg
               spec_CloneSettings_default s "run-1" "step-1" Scenario.defs
               Scenario.st0 in
  out.1 = Raise (ExternalError "docker: cannot stop service")
  /\ List.filter is_acquire (trace out.2)
     = [EvStartServices (Scenario.sm_of "A"); EvContainerStart (Scenario.cr_of "A")]
  /\ List.filter is_release (trace out.2)
     = [EvStopServices (Scenario.sm_of "A")].
Proof. repeat split; vm_compute; reflexivity. Qed.

(** C2 does not hold of the code on the exit path on which the service
    stop raises ([guaranteed_release] covers the paths on which it
    returns).  The script raises an unexpected error after the two
    services and the container were started.  When the release actions
    work, the services and the container are each stopped once and the
    script's error leaves [run].  When stopping the services raises, the
    started container is never stopped, and the error that leaves [run]
    is that of the service stop. *)
Theorem release_incomplete_when_service_stop_raises :
  let s := Scenario.mk_step "A" 0 in
  let run E := StepRunner_run E Scenario.cfg spec_CloneSettings_default s
                 "run-1" "step-1" Scenario.defs Scenario.st0 in
  let good := run Scenario.env_script_fails in
  let bad := run Scenario.env_script_and_stop_fail in
  services s = ["postgres"; "redis"]
  /\ good.1 = Raise (ExternalError "docker: exec failed")
  /\ List.filter is_release (trace good.2)
     = [EvStopServices (Scenario.sm_of "A"); EvContainerStop (Scenario.cr_of "A")]
  /\ bad.1 = Raise (ExternalError "docker: cannot stop service")
  /\ List.filter is_acquire (trace bad.2)
     = [EvStartServices (Scenario.sm_of "A"); EvContainerStart (Scenario.cr_of "A")]
  /\ List.filter is_release (trace bad.2)
     = [EvStopServices (Scenario.sm_of "A")].
Proof. repeat split; vm_compute; reflexivity. Qed.

(** ** Identifiers inside a parallel group *)

(** An induction principle for nodes that reaches the children of a
    parallel node. *)
Fixpoint Node_ind' (P : Node -> Prop)
    (Hstep : forall s, P (StepNode s))
    (Hpar : forall pname steps, Forall P steps -> P (ParallelNode pname steps))
    (n : Node) {struct n} : P n :=
  match n with
  | StepNode s => Hstep s
  | ParallelNode pname steps =>
      Hpar pname steps
        ((fix all (l : list Node) : Forall P l :=
            match l with
            | [] => @List.Forall_nil _ P
            | c :: l0 => @List.Forall_cons _ P c l0 (Node_ind' P Hstep Hpar c) (all l0)
            end) steps)
  end.

(** What a runner built with the identifiers [pu] and [su] may record: a
    "Step ID" notice carries [su], an artifact transfer is made under [pu]
    and [su], and no identifier is drawn. *)
Definition step_event (pu su : string) (ev : Event) : Prop :=
  match ev with
  | EvLog _ fmt args => fmt = "Step ID: %s" -> args = [AStr su]
  | EvArtifactUpload _ p s => p = pu /\ s = su
  | EvArtifactDownload _ p s _ => p = pu /\ s = su
  | EvUuid4 => False
  | _ => True
  end.

Lemma lifecycle_step_event pu su ev :
  lifecycle_event pu su ev -> step_event pu su ev.
Proof. destruct ev; simpl; try done. Qed.

Section Identifiers.

Variable E : Env.
Variable config : Config.
Variable d : CloneSettings.
Variable defs : Pipelines.
Variables pu su : string.

Lemma emits_run_acquire s :
  emits (step_event pu su) (run_acquire E config s defs).
Proof.
  unfold run_acquire. repeat first [ done | emits_step ].
Qed.

Lemma emits_run_release : emits (step_event pu su) (run_release E).
Proof.
  unfold run_release. repeat first [ done | emits_step ].
Qed.

Lemma emits_StepRunner_init : emits (step_event pu su) StepRunner_init.
Proof. unfold StepRunner_init. repeat first [ done | emits_step ]. Qed.

Lemma emits_StepRunner_run s :
  emits (step_event pu su) (StepRunner_run E config d s pu su defs).
Proof.
  unfold StepRunner_run.
  pose proof (emits_run_acquire s). pose proof emits_run_release.
  assert (forall cr, emits (step_event pu su)
                       (run_lifecycle E config d s pu su defs cr)).
  { intros cr. eapply emits_mono; [apply lifecycle_step_event|].
    apply emits_run_lifecycle. }
  destruct (negb (_should_run config s)).
  - repeat first [ done | emits_step ].
  - apply emits_bind; [apply emits_log; done|intros _].
    apply emits_bind; [apply emits_log; done|intros _].
    apply emits_bind.
    + apply emits_try_finally; [|done].
      apply emits_bind; [done|intros; done].
    + intros c. repeat first [ done | emits_step ].
Qed.

Lemma emits_parallel_loop run steps acc :
  Forall (fun c => emits (step_event pu su) (run c pu su)) steps ->
  emits (step_event pu su) (parallel_loop run pu su steps acc).
Proof.
  intros Hall. revert acc.
  induction Hall as [|c steps Hc _ IH]; intros acc; simpl.
  - apply emits_ret.
  - apply emits_bind; [exact Hc | intros rc; apply IH].
Qed.

End Identifiers.

Lemma emits_StepRunnerFactory_get_run E config d defs n :
  forall pu su,
    emits (step_event pu su) (StepRunnerFactory_get_run E config d defs n pu su).
Proof.
  induction n as [s|pname steps IH] using Node_ind'; intros pu su; simpl.
  - apply emits_bind; [apply emits_StepRunner_init|intros _].
    apply emits_StepRunner_run.
  - apply emits_bind; [apply emits_StepRunner_init|intros _].
    unfold ParallelStepRunner_run. apply emits_parallel_loop.
    eapply Forall_impl; [exact IH|]. intros c Hc. apply Hc.
Qed.

Lemma step_ids_shared pu su evs :
  Forall (step_event pu su) evs ->
  step_ids evs = replicate (length (step_ids evs)) su.
Proof.
  unfold step_ids. induction 1 as [|ev evs Hev _ IH]; [reflexivity|].
  simpl. destruct (notice_arg "Step ID: %s" ev) as [u|] eqn:Hu; [|exact IH].
  simpl. f_equal; [|exact IH].
  destruct ev as [lvl fmt args| | | | | | | | | | | | | | | |]; try discriminate.
  simpl in Hu, Hev.
  destruct args as [|[x| | | |] [|]]; try discriminate.
  destruct (String.eqb_spec fmt "Step ID: %s") as [->|]; [|discriminate].
  injection Hu as <-. by injection (Hev eq_refl).
Qed.

(** C9, as the code has it.  Every child of a parallel group is run with
    the group's pipeline-run identifier and with the group's own step-run
    identifier: nothing run inside the group draws an identifier, every
    artifact transfer inside the group is made under the group's two
    identifiers, and every "Step ID" notice logged inside the group shows
    the group's step-run identifier.  The children differ by their step
    names only. *)
Theorem parallel_children_share_identifiers
    (E : Env) (config : Config) (d : CloneSettings) (defs : Pipelines)
    (pname : string) (steps : list Node) (pu su : string) (st : State) :
  let out := StepRunnerFactory_get_run E config d defs
               (ParallelNode pname steps) pu su st in
  Forall (step_event pu su) (new_events st out.2)
  /\ step_ids (new_events st out.2)
     = replicate (length (step_ids (new_events st out.2))) su.
Proof.
  intros out.
  assert (Hall : Forall (step_event pu su) (new_events st out.2))
    by apply emits_new_events, emits_StepRunnerFactory_get_run.
  split; [exact Hall|]. by eapply step_ids_shared.
Qed.

(** C9, as stated, fails: the two children of a group run under the
    step-run identifier of the group itself, so their identities are
    neither fresh nor distinct from each other. *)
Lemma parallel_children_same_step_id :
  let X := StepNode (Scenario.mk_step "X" 0) in
  let Y := StepNode (Scenario.mk_step "Y" 0) in
  let out := _execute_pipeline Scenario.env_ok Scenario.cfg
               spec_CloneSettings_default Scenario.defs "run-1"
               [ParallelNode "group" [X; Y]] Scenario.st0 in
  let group_id := uuid4 Scenario.env_ok [] in
  out.1 = Ok None
  /\ running_steps (trace out.2) = ["X"; "Y"]
  /\ step_ids (trace out.2) = [group_id; group_id]
  /\ ~ (exists x y, step_ids (trace out.2) = [x; y] /\ x <> y).
Proof.
  intros X Y out group_id.
  assert (Hids : step_ids (trace out.2) = [group_id; group_id])
    by (vm_compute; reflexivity).
  split; [vm_compute; reflexivity|]. split; [vm_compute; reflexivity|].
  split; [exact Hids|].
  intros (x & y & Hxy & Hne). rewrite Hids in Hxy.
  injection Hxy as <- <-. by apply Hne.
Qed.


(** * Further properties of the engine *)

(** ** The local cache files *)








Section KeepsFiles.

Variable E : Env.
Variable config : Config.
Variable d : CloneSettings.
Variable s : Step.
Variables pu su : string.
Variable defs : Pipelines.






End KeepsFiles.


(** Concrete data for the properties below. *)
Module Cases.

(** The local cache holds an earlier archive of [pip]; no runner has
    started anything. *)
Definition st_cached : State :=
  {| trace := []; fs := <[Scenario.pip_tar := Scenario.old_archive]> ∅;
     self_services_manager := None; self_container_runner := None |}.

Definition npm_tar : string := "/home/u/.cache/pipeline-runner/npm.tar".

Definition npm_archive : bytes := [x07; x08].

(** Two archives in the local cache: [pip] and [npm]. *)
Definition st_two : State :=
  {| trace := [];
     fs := <[npm_tar := npm_archive]> (<[Scenario.pip_tar := Scenario.old_archive]> ∅);
     self_services_manager := None; self_container_runner := None |}.

End Cases.


(** X2.  A cache named in the ignore-set, which holds ["docker"] and
    nothing else, is passed over by [upload] and by [download] alike:
    one "Ignoring" notice is logged, nothing is asked of the container or
    of the local cache directory, no file is touched and nothing is
    raised, whether the name is defined or not. *)
Theorem ignored_cache_is_passed_over
    (E : Env) (cr : ContainerRunner) (defs : gmap string Cache)
    (n : string) (st : State) :
  (CacheManager._should_ignore n = true <-> n = "docker")
  /\ (CacheManager._should_ignore n = true ->
      CacheManager._upload_cache E cr defs n st
      = (Ok tt, emit (EvLog INFO "Cache '%s': Ignoring" [AStr n]) st)
      /\ CacheManager._download_cache E cr defs n st
      = (Ok tt, emit (EvLog INFO "Cache '%s': Ignoring" [AStr n]) st)).
Proof.
  split.
  - unfold CacheManager._should_ignore, CacheManager._ignored_caches.
    rewrite bool_decide_eq_true. set_solver.
  - intros Hign.
    unfold CacheManager._upload_cache, CacheManager._download_cache.
    by rewrite Hign.
Qed.

Lemma ignored_cache_is_passed_over_witness :
  CacheManager.download Scenario.env_ok (Scenario.cr_of "A") ∅ ["docker"]
    Cases.st_cached
  = (Ok tt, emit (EvLog INFO "Cache '%s': Ignoring" [AStr "docker"]) Cases.st_cached).
Proof.
  simpl. unfold bind.
  rewrite (proj2 (proj2 (ignored_cache_is_passed_over Scenario.env_ok
                           (Scenario.cr_of "A") ∅ "docker" Cases.st_cached)
                    eq_refl)).
  reflexivity.
Defined.



(** ** Restoring a cache *)

(** The shell command that [_upload_cache] sends before the archive:
    remove the target directory if it is there, make its parent. *)
Definition prepare_cache_dir_cmd (remote_cache_directory : string) : string :=
  "[ -d " +:+ dquote +:+ remote_cache_directory +:+ dquote
    +:+ " ] && rm -rf " +:+ dquote +:+ remote_cache_directory +:+ dquote
    +:+ "; " +:+ "mkdir -p " +:+ dquote
    +:+ os_path_dirname remote_cache_directory +:+ dquote.

(** [_upload_cache] of a defined cache whose local archive exists, up to
    the point where the container is asked to prepare the directory. *)
Lemma upload_cache_prepared
    (E : Env) (cr : ContainerRunner) (defs : gmap string Cache)
    (n : string) (c : Cache) (st : State) (dir remote : string) (content : bytes) :
  CacheManager._should_ignore n = false ->
  get_local_cache_directory E (trace st) = Ok dir ->
  let local_archive := os_path_join dir (n +:+ ".tar") in
  fs st !! local_archive = Some content ->
  defs !! n = Some c ->
  expand_path E cr (path c) (trace st ++ [EvLocalCacheDirectory]) = Ok remote ->
  let prepare := CmdShell (prepare_cache_dir_cmd remote) in
  CacheManager._upload_cache E cr defs n st
  = (let! r := call (EvRunCommand cr prepare) (run_command E cr prepare) in
     let! ro := (fun st => (command_unpack r, st)) in
     let '(res, output) := ro in
     if negb (res =? 0) then
       log ERROR "Remote command failed: %s" [ABytes output];;;
       raise (PyException ("Error uploading cache: " +:+ n))
     else
       open_rb local_archive;;;
       let! success :=
         call (EvPutArchive cr (os_path_dirname remote) content)
              (put_archive E cr (os_path_dirname remote) content) in
       if negb success then
         raise (PyException ("Error uploading cache: " +:+ n))
       else
         log INFO "Cache '%s': Uploaded %s in %.3fs"
             [AStr n; ASize (Z.of_nat (length content)); AElapsed])
      (emit (EvLog INFO "Cache '%s': Uploading" [AStr n])
         (emit (EvExpandPath cr (path c)) (emit EvLocalCacheDirectory st))).
Proof.
  intros Hign Hdir local_archive Hfile Hdef Hexp prepare.
  unfold CacheManager._upload_cache. rewrite Hign.
  unfold CacheManager._get_local_cache_archive_path,
    CacheManager._get_remote_directory.
  rewrite Hdef.
  unfold bind at 1. unfold bind at 1. unfold call at 1, ret at 1. rewrite Hdir.
  unfold bind at 1, get_fs at 1.
  change (fs (emit EvLocalCacheDirectory st)) with (fs st).
  fold local_archive. rewrite Hfile.
  unfold bind at 1, call at 1. simpl trace. rewrite Hexp.
  unfold bind at 1, log at 1. reflexivity.
Qed.



(** ** Persisting a cache and restoring it *)

(** [_download_cache] of a defined cache, with a stream that ends: the
    local archive holds the chunks received, in order. *)
Lemma download_cache_complete
    (E : Env) (cr : ContainerRunner) (defs : gmap string Cache)
    (n : string) (c : Cache) (st : State) (dir remote : string) (a : Archive) :
  CacheManager._should_ignore n = false ->
  defs !! n = Some c ->
  get_local_cache_directory E (trace st) = Ok dir ->
  expand_path E cr (path c) (trace st ++ [EvLocalCacheDirectory]) = Ok remote ->
  let local_archive := os_path_join dir (n +:+ ".tar") in
  let notices :=
    (if String.eqb remote EmptyString
     then [EvLog INFO "Cache '%s': Ignoring" [AStr n]] else [])
    ++ [EvLog INFO "Cache '%s': Downloading" [AStr n]] in
  let opened :=
    trace st ++ [EvLocalCacheDirectory; EvExpandPath cr (path c)]
      ++ notices ++ [EvOpen local_archive "wb"] in
  get_archive E cr remote opened = Ok a ->
  stream_error a = None ->
  exists st',
    CacheManager._download_cache E cr defs n st = (Ok tt, st')
    /\ fs st' !! local_archive = Some (concat (chunks a))
    /\ trace st'
       = opened ++ [EvGetArchive cr remote;
                    EvLog INFO "Cache '%s': Downloaded %s in %.3fs"
                      [AStr n; ASize (Z.of_nat (length (concat (chunks a))));
                       AElapsed]].
Proof.
  intros Hign Hdef Hdir Hexp local_archive notices opened Harch Herr.
  rewrite (download_cache_opened E cr defs n c st dir remote Hign Hdef Hdir Hexp).
  fold local_archive notices opened.
  unfold bind, call. simpl. rewrite Harch.
  destruct (write_chunks_spec local_archive (chunks a) 0
              (emit (EvGetArchive cr remote) (opened_state st opened local_archive)) [])
    as (stw & Hw & Htr & Hfs & _); [simpl; apply lookup_insert_eq|].
  rewrite Hw, Herr. eexists. split; [reflexivity|]. simpl in *.
  split; [exact Hfs|]. rewrite Htr. by rewrite <- app_assoc.
Qed.

(** X5.  Round trip of a cache.  After [_download_cache] has stored an
    archive stream that ended normally, an [_upload_cache] of the same
    cache, made while the local archive is as the download left it and
    with the preparation command answered by status 0, hands the
    container the bytes received by the download, in the order they were
    received, for the parent of the remote directory. *)
Theorem cache_round_trip
    (E : Env) (cr : ContainerRunner) (defs : gmap string Cache)
    (n : string) (c : Cache) (dir remote remote' : string) (a : Archive)
    (st st2 : State) (output : bytes) :
  CacheManager._should_ignore n = false ->
  defs !! n = Some c ->
  let local_archive := os_path_join dir (n +:+ ".tar") in
  (* the download *)
  get_local_cache_directory E (trace st) = Ok dir ->
  expand_path E cr (path c) (trace st ++ [EvLocalCacheDirectory]) = Ok remote ->
  get_archive E cr remote
    (trace st ++ [EvLocalCacheDirectory; EvExpandPath cr (path c)]
       ++ ((if String.eqb remote EmptyString
            then [EvLog INFO "Cache '%s': Ignoring" [AStr n]] else [])
           ++ [EvLog INFO "Cache '%s': Downloading" [AStr n]])
       ++ [EvOpen local_archive "wb"]) = Ok a ->
  stream_error a = None ->
  let st1 := (CacheManager._download_cache E cr defs n st).2 in
  (* the later upload *)
  fs st2 !! local_archive = fs st1 !! local_archive ->
  get_local_cache_directory E (trace st2) = Ok dir ->
  expand_path E cr (path c) (trace st2 ++ [EvLocalCacheDirectory]) = Ok remote' ->
  run_command E cr (CmdShell (prepare_cache_dir_cmd remote'))
    (trace st2 ++ [EvLocalCacheDirectory; EvExpandPath cr (path c);
                   EvLog INFO "Cache '%s': Uploading" [AStr n]])
  = Ok (ResPair 0 output) ->
  EvPutArchive cr (os_path_dirname remote') (concat (chunks a))
    ∈ new_events st2 (CacheManager._upload_cache E cr defs n st2).2.
Proof.
  intros Hign Hdef local_archive Hdir Hexp Harch Herr st1 Hsame Hdir2 Hexp2 Hcmd.
  destruct (download_cache_complete E cr defs n c st dir remote a
              Hign Hdef Hdir Hexp Harch Herr) as (st' & Hdl & Hfs & _).
  subst st1. rewrite Hdl in Hsame. simpl in Hsame.
  fold local_archive in Hfs. rewrite Hfs in Hsame.
  rewrite (upload_cache_prepared E cr defs n c st2 dir remote'
             (concat (chunks a)) Hign Hdir2 Hsame Hdef Hexp2).
  fold local_archive.
  unfold bind at 1, call at 1. simpl trace.
  rewrite <- !app_assoc. simpl app. rewrite Hcmd.
  unfold bind, open_rb, call, log, raise. simpl.
  destruct (put_archive E cr _ _ _) as [[|]|e]; simpl;
    (erewrite new_events_app
       by (simpl; rewrite <- ?app_assoc; simpl; reflexivity));
    set_solver.
Qed.

Lemma cache_round_trip_witness :
  let E := Scenario.mk_env Scenario.script_status Scenario.command_ok (Ok tt)
             (Ok {| chunks := [[x0a; x0b]; [x0c]]; stream_error := None |}) in
  let cr := Scenario.cr_of "A" in
  let caches := def_caches Scenario.defs in
  let st1 := (CacheManager._download_cache E cr caches "pip" Cases.st_cached).2 in
  EvPutArchive cr "/root/.cache" [x0a; x0b; x0c]
    ∈ new_events st1 (CacheManager._upload_cache E cr caches "pip" st1).2.
Proof.
  intros E cr caches st1.
  refine (cache_round_trip E cr caches "pip" {| path := "/root/.cache/pip" |}
            "/home/u/.cache/pipeline-runner" "/root/.cache/pip" "/root/.cache/pip"
            {| chunks := [[x0a; x0b]; [x0c]]; stream_error := None |}
            Cases.st_cached st1 [] _ _ _ _ _ _ _ _ _ _).
  - vm_compute. reflexivity.
  - vm_compute. reflexivity.
  - reflexivity.
  - reflexivity.
  - reflexivity.
  - reflexivity.
  - reflexivity.
  - reflexivity.
  - reflexivity.
  - reflexivity.
Defined.



(** X7.  [upload] and [download] go through the names in order and
    stop at the first one that raises: the names before it were dealt
    with and stay so, the names after it are not looked at, and the
    exception is the one of that name. *)
Theorem transfer_stops_at_first_error
    (E : Env) (cr : ContainerRunner) (defs : gmap string Cache)
    (pre post : list string) (n : string) (st st1 st2 : State) (e : exn) :
  (CacheManager.upload E cr defs pre st = (Ok tt, st1) ->
   CacheManager._upload_cache E cr defs n st1 = (Raise e, st2) ->
   CacheManager.upload E cr defs (pre ++ n :: post) st = (Raise e, st2))
  /\ (CacheManager.download E cr defs pre st = (Ok tt, st1) ->
      CacheManager._download_cache E cr defs n st1 = (Raise e, st2) ->
      CacheManager.download E cr defs (pre ++ n :: post) st = (Raise e, st2)).
Proof.
  split; intros Hpre Hn.
  - rewrite (upload_app _ _ _ _ _ _ _ Hpre). simpl. unfold bind. by rewrite Hn.
  - rewrite (download_app _ _ _ _ _ _ _ Hpre). simpl. unfold bind. by rewrite Hn.
Qed.

Lemma transfer_stops_at_first_error_witness :
  let E := Scenario.mk_env Scenario.script_status Scenario.command_ok (Ok tt)
             (Raise (ExternalError "docker: get_archive failed")) in
  let cr := Scenario.cr_of "A" in
  let caches := def_caches Scenario.defs in
  let st1 := (CacheManager.download E cr caches ["docker"] Cases.st_two).2 in
  let st2 := (CacheManager._download_cache E cr caches "pip" st1).2 in
  CacheManager.download E cr caches ["docker"; "pip"; "npm"] Cases.st_two
  = (Raise (ExternalError "docker: get_archive failed"), st2).
Proof.
  intros E cr caches st1 st2.
  assert (H1 : (CacheManager.download E cr caches ["docker"] Cases.st_two).1 = Ok tt)
    by (vm_compute; reflexivity).
  assert (H2 : (CacheManager._download_cache E cr caches "pip" st1).1
               = Raise (ExternalError "docker: get_archive failed"))
    by (vm_compute; reflexivity).
  exact (proj2 (transfer_stops_at_first_error E cr caches ["docker"] ["npm"] "pip"
                  Cases.st_two st1 st2 _)
           (run_result _ _ H1) (run_result _ _ H2)).
Defined.

(** ** Selection of steps *)

(** X8.  A run scoped to some step names skips every simple step whose
    name is not among them, and skips no step otherwise.  A skipped step
    logs one notice and returns no exit code: nothing is started, no
    command is run, no file is touched.  The driver takes it for a step
    that passed and goes on with the next one. *)
Theorem skipped_step_is_a_no_op
    (E : Env) (config : Config) (d : CloneSettings) (defs : Pipelines)
    (s : Step) (pu su : string) (rest : list Node) (st : State) :
  (_should_run config s = false
   <-> selected_steps config <> [] /\ name s ∉ selected_steps config)
  /\ (_should_run config s = false ->
      StepRunner_run E config d s pu su defs st
      = (Ok None, emit (EvLog INFO "Skipping step: %s" [AStr (name s)]) st)
      /\ exists st',
          pipeline_turn E config d defs pu (StepNode s) st = (Ok None, st')
          /\ new_events st st'
             = [EvUuid4; EvLog INFO "Skipping step: %s" [AStr (name s)]]
          /\ fs st' = fs st
          /\ _execute_pipeline E config d defs pu (StepNode s :: rest) st
             = _execute_pipeline E config d defs pu rest st').
Proof.
  split.
  - unfold _should_run. destruct (selected_steps config) as [|x l] eqn:Hsel.
    + split; [discriminate|]. by intros [? _].
    + destruct (bool_decide_reflect (name s ∈ x :: l)) as [Hin|Hin]; simpl.
      * split; [discriminate|]. by intros [_ ?].
      * split; [|done]. by intros _.
  - intros Hskip.
    assert (Hrun : forall st0,
              StepRunner_run E config d s pu su defs st0
              = (Ok None, emit (EvLog INFO "Skipping step: %s" [AStr (name s)]) st0)).
    { intros st0. unfold StepRunner_run. by rewrite Hskip. }
    split; [apply Hrun|].
    assert (Hturn : forall u st0,
              StepRunner_run E config d s pu u defs st0
              = (Ok None, emit (EvLog INFO "Skipping step: %s" [AStr (name s)]) st0)).
    { intros u st0. unfold StepRunner_run. by rewrite Hskip. }
    eexists. split; [|split; [|split]].
    + unfold pipeline_turn, new_uuid, bind, call. simpl.
      unfold bind. simpl. rewrite Hturn. reflexivity.
    + unfold new_events. simpl. rewrite <- app_assoc. apply drop_app_length.
    + reflexivity.
    + rewrite execute_pipeline_cons. unfold bind.
      unfold pipeline_turn, new_uuid, bind, call. simpl.
      unfold bind. simpl. rewrite Hturn. reflexivity.
Qed.

Lemma skipped_step_is_a_no_op_witness :
  let config := {| project_slug := "proj"; selected_steps := ["build"];
                   default_image := "alpine";
                   build_container_base_memory_limit := 1024;
                   remote_workspace_dir := "/var/run/workspace" |} in
  let out := _execute_pipeline Scenario.env_ok config spec_CloneSettings_default
               Scenario.defs "run-1"
               [StepNode (Scenario.mk_step "test" 5);
                StepNode (Scenario.mk_step "build" 0)] Scenario.st0 in
  StepRunner_run Scenario.env_ok config spec_CloneSettings_default
    (Scenario.mk_step "test" 5) "run-1" "step-1" Scenario.defs Scenario.st0
  = (Ok None, emit (EvLog INFO "Skipping step: %s" [AStr "test"]) Scenario.st0)
  /\ out.1 = Ok None
  /\ running_steps (trace out.2) = ["build"].
Proof.
  intros config out. split.
  - refine (proj1 (proj2 (skipped_step_is_a_no_op Scenario.env_ok config
                           spec_CloneSettings_default Scenario.defs
                           (Scenario.mk_step "test" 5) "run-1" "step-1" []
                           Scenario.st0) _)).
    vm_compute. reflexivity.
  - split; vm_compute; reflexivity.
Defined.

(** ** Script, after-script and teardown *)

(** X9.  Once Setup has returned, the script is run, and whatever exit
    code [c] it returns -- zero or not -- the after-script is run next,
    with [BITBUCKET_EXIT_CODE] set to [c].  The exit code [c'] of the
    after-script is dropped: a "FAIL" notice is logged exactly when [c] is
    not 0, Teardown is run for [c], and the lifecycle returns [c] when
    Teardown returns.  When the script raises instead of returning an exit
    code, the after-script is not run. *)
Theorem after_script_does_not_change_the_result
    (E : Env) (config : Config) (d : CloneSettings) (s : Step)
    (pu su : string) (defs : Pipelines) (cr : ContainerRunner)
    (st st1 : State) :
  _build_setup E config d s pu su defs st = (Ok tt, st1) ->
  let script_ev := EvRunScript cr (script s) None in
  (forall c c',
      run_script E cr (script s) None (trace st1) = Ok c ->
      let after_env := Some [("BITBUCKET_EXIT_CODE", c)] in
      let after_ev := EvRunScript cr (after_script s) after_env in
      run_script E cr (after_script s) after_env (trace st1 ++ [script_ev]) = Ok c' ->
      let st2 := emit after_ev (emit script_ev st1) in
      let st3 := if c =? 0 then st2
                 else emit (EvLog ERROR "Step '%s': FAIL" [AStr (name s)]) st2 in
      run_lifecycle E config d s pu su defs cr st
      = match _build_teardown E s pu su defs c st3 with
        | (Ok _, st4) => (Ok c, st4)
        | (Raise e, st4) => (Raise e, st4)
        end)
  /\ (forall e,
      run_script E cr (script s) None (trace st1) = Raise e ->
      run_lifecycle E config d s pu su defs cr st = (Raise e, emit script_ev st1)).
Proof.
  intros Hsetup script_ev. split.
  - intros c c' Hscript after_env after_ev Hafter st2 st3.
    unfold run_lifecycle. unfold bind at 1. rewrite Hsetup.
    unfold bind at 1, call at 1. rewrite Hscript.
    unfold bind at 1, call at 1. simpl trace.
    fold script_ev after_env. rewrite Hafter.
    unfold bind at 1. subst st3 st2.
    destruct (c =? 0); simpl; unfold bind, ret;
      destruct (_build_teardown _ _ _ _ _ _ _) as [[[]|e] st4]; reflexivity.
  - intros e Hscript.
    unfold run_lifecycle. unfold bind at 1. rewrite Hsetup.
    unfold bind at 1, call at 1. by rewrite Hscript.
Qed.

Lemma after_script_does_not_change_the_result_witness :
  let after cmds :=
    if bool_decide (cmds = ["exit 9"]) then Ok 9 else Scenario.script_status cmds in
  let E := {| uuid4 := uuid4 Scenario.env_ok; slugify := slugify Scenario.env_ok;
              start_services := start_services Scenario.env_ok;
              get_services_names := get_services_names Scenario.env_ok;
              stop_services := stop_services Scenario.env_ok;
              container_start := container_start Scenario.env_ok;
              container_stop := container_stop Scenario.env_ok;
              run_script := fun _ cmds _ _ => after cmds;
              run_command := run_command Scenario.env_ok;
              put_archive := put_archive Scenario.env_ok;
              get_archive := get_archive Scenario.env_ok;
              expand_path := expand_path Scenario.env_ok;
              artifact_upload := artifact_upload Scenario.env_ok;
              artifact_download := artifact_download Scenario.env_ok;
              get_git_current_branch := get_git_current_branch Scenario.env_ok;
              get_local_cache_directory :=
                get_local_cache_directory Scenario.env_ok |} in
  let s := {| name := "A"; script := Scenario.exit_script 3;
              after_script := ["exit 9"]; image := None;
              clone_settings := Scenario.unset; size := 1; services := [];
              caches := []; artifacts := [] |} in
  let out := run_lifecycle E Scenario.cfg spec_CloneSettings_default s
               "run-1" "step-1" Scenario.defs (Scenario.cr_of "A")
               (Scenario.st_running "A") in
  out.1 = Ok 3.
Proof.
  intros after E s out.
  assert (Hsetup : (_build_setup E Scenario.cfg spec_CloneSettings_default s
                      "run-1" "step-1" Scenario.defs (Scenario.st_running "A")).1
                   = Ok tt) by (vm_compute; reflexivity).
  pose proof (proj1 (after_script_does_not_change_the_result E Scenario.cfg
                       spec_CloneSettings_default s "run-1" "step-1" Scenario.defs
                       (Scenario.cr_of "A") (Scenario.st_running "A") _
                       (run_result _ _ Hsetup))
                3 9 eq_refl eq_refl) as H.
  unfold out. rewrite H. vm_compute. reflexivity.
Defined.

(** X10.  Teardown persists the artifacts after the caches.  After a
    failed script (exit code not 0) the caches are skipped with a warning
    and the artifacts are downloaded with the step's patterns, under the
    step's two identifiers.  After a script that passed, the artifacts are
    downloaded once the caches have been downloaded; but when a cache
    download raises, Teardown ends there and the artifacts are not
    downloaded. *)
Theorem artifact_persist_follows_cache_persist
    (E : Env) (s : Step) (pu su : string) (defs : Pipelines)
    (cr : ContainerRunner) (st : State) :
  self_container_runner st = Some cr ->
  let st1 := emit (EvLog INFO "Build teardown: '%s'" [AStr (name s)]) st in
  let persist := EvArtifactDownload cr pu su (artifacts s) in
  let finished :=
    EvLog INFO "Build teardown finished in %.3fs: '%s'" [AElapsed; AStr (name s)] in
  let persisted (st2 : State) :=
    match artifact_download E cr pu su (artifacts s) (trace st2) with
    | Ok _ => (Ok tt, emit finished (emit persist st2))
    | Raise e => (Raise e, emit persist st2)
    end in
  (forall c, c <> 0 ->
     _build_teardown E s pu su defs c st
     = persisted (emit (EvLog WARNING "Skipping caches for failed step" []) st1))
  /\ (forall st2,
       CacheManager.download E cr (def_caches defs) (caches s) st1 = (Ok tt, st2) ->
       _build_teardown E s pu su defs 0 st = persisted st2)
  /\ (forall e st2,
       CacheManager.download E cr (def_caches defs) (caches s) st1 = (Raise e, st2) ->
       _build_teardown E s pu su defs 0 st = (Raise e, st2)).
Proof.
  intros Hcr st1 persist finished persisted.
  assert (Hcr1 : forall ev st0, self_container_runner st0 = Some cr ->
                   the_container_runner (emit ev st0) = (Ok cr, emit ev st0)).
  { intros ev st0 H. unfold the_container_runner. simpl. by rewrite H. }
  assert (Hpersist : forall st2, self_container_runner st2 = Some cr ->
            (_download_artifacts E s pu su;;;
             _stop_services;;;
             log INFO "Build teardown finished in %.3fs: '%s'"
               [AElapsed; AStr (name s)]) st2 = persisted st2).
  { intros st2 H. unfold _download_artifacts, _stop_services, persisted.
    unfold bind, call, the_container_runner, ret, log. rewrite H.
    by destruct (artifact_download E cr pu su (artifacts s) (trace st2)) as [[]|e]. }
  split; [|split].
  - intros c Hc. apply Z.eqb_neq in Hc.
    unfold _build_teardown, _download_caches. rewrite Hc.
    unfold bind at 1, log at 1. unfold bind at 1, log at 1.
    by rewrite Hpersist.
  - intros st2 Hdl.
    unfold _build_teardown, _download_caches. simpl.
    unfold bind at 1, log at 1. unfold bind at 1. unfold bind at 1.
    rewrite (Hcr1 _ _ Hcr). fold st1. rewrite Hdl.
    apply Hpersist.
    destruct (steady_download E cr (def_caches defs) (caches s) st1) as [_ H].
    rewrite Hdl in H. simpl in H. by rewrite H.
  - intros e st2 Hdl.
    unfold _build_teardown, _download_caches. simpl.
    unfold bind at 1, log at 1. unfold bind at 1. unfold bind at 1.
    rewrite (Hcr1 _ _ Hcr). fold st1. by rewrite Hdl.
Qed.

Lemma artifact_persist_follows_cache_persist_witness :
  let E := Scenario.mk_env Scenario.script_status Scenario.command_ok (Ok tt)
             (Raise (ExternalError "docker: get_archive failed")) in
  let s := Scenario.mk_step "A" 0 in
  let out := _build_teardown E s "run-1" "step-1" Scenario.defs 0
               (Scenario.st_running "A") in
  out.1 = Raise (ExternalError "docker: get_archive failed")
  /\ List.filter is_artifact_download (trace out.2) = [].
Proof.
  intros E s out.
  assert (Hdl : (CacheManager.download E (Scenario.cr_of "A")
                   (def_caches Scenario.defs) (caches s)
                   (emit (EvLog INFO "Build teardown: '%s'" [AStr (name s)])
                      (Scenario.st_running "A"))).1
                = Raise (ExternalError "docker: get_archive failed"))
    by (vm_compute; reflexivity).
  pose proof (proj2 (proj2 (artifact_persist_follows_cache_persist E s
                              "run-1" "step-1" Scenario.defs (Scenario.cr_of "A")
                              (Scenario.st_running "A") eq_refl))
                _ _ (run_result _ _ Hdl)) as H.
  unfold out. rewrite H. split; [reflexivity|]. vm_compute. reflexivity.
Defined.

(** ** Release, seen from [run] *)

(** X11.  The handles are stored before the resources are started, so
    the [finally] block stops what failed to start.  When starting the
    services raises, they are stopped all the same, no container is
    created, started or stopped, and nothing else is recorded; the error
    of the start leaves [run] unless the stop raises too.  When starting
    the container raises and stopping the services returns, the container
    that did not start is stopped as well. *)
Theorem stop_follows_failed_start
    (E : Env) (config : Config) (d : CloneSettings) (s : Step)
    (pu su : string) (defs : Pipelines) (st : State) :
  _should_run config s = true ->
  let sm := services_manager_of E config s defs in
  let h := trace st ++ [EvLog INFO "Running step: %s" [AStr (name s)];
                        EvLog DEBUG "Step ID: %s" [AStr su]] in
  let out := StepRunnerFactory_get_run E config d defs (StepNode s) pu su st in
  (forall e, start_services E sm h = Raise e ->
     trace out.2 = h ++ [EvStartServices sm; EvStopServices sm]
     /\ out.1 = match stop_services E sm (h ++ [EvStartServices sm]) with
                | Ok _ => Raise e
                | Raise e' => Raise e'
                end)
  /\ (forall names e,
        start_services E sm h = Ok tt ->
        get_services_names E sm (h ++ [EvStartServices sm]) = Ok names ->
        let cr := {| cr_image := _get_image config s defs;
                     cr_name := project_slug config +:+ "-step-" +:+ slugify E (name s);
                     cr_mem_limit := _get_build_container_memory_limit config s;
                     cr_services_names := names;
                     cr_data_volume_name := sm_data_volume_name sm |} in
        let h' := h ++ [EvStartServices sm; EvGetServicesNames sm; EvContainerStart cr] in
        container_start E cr (h ++ [EvStartServices sm; EvGetServicesNames sm])
          = Raise e ->
        stop_services E sm h' = Ok tt ->
        trace out.2 = h' ++ [EvStopServices sm; EvContainerStop cr]
        /\ out.1 = match container_stop E cr (h' ++ [EvStopServices sm]) with
                   | Ok _ => Raise e
                   | Raise e' => Raise e'
                   end).
Proof.
  intros Hrun sm h out.
  destruct out as [r st'] eqn:Hout. subst out. revert Hout.
  simpl StepRunnerFactory_get_run. unfold bind at 1.
  change (StepRunner_init st) with (@Ok unit tt, (StepRunner_init st).2).
  cbv iota.
  rewrite (StepRunner_run_unfold _ _ _ _ _ _ _ _ Hrun).
  unfold try_finally, bind at 1.
  unfold run_acquire, step_started.
  unfold run_release, get_services_manager, get_container_runner.
  unfold bind, call, ret, set_services_manager, set_container_runner.
  unfold services_manager_of in sm. subst sm h.
  simpl. rewrite <- ?app_assoc. simpl.
  intros Hout. split.
  - intros e He. rewrite He in Hout. simpl in Hout.
    rewrite <- ?app_assoc in *. simpl in *.
    destruct (stop_services E _ _) as [[]|e'];
      simpl in Hout; injection Hout as <- <-; simpl; rewrite <- ?app_assoc; done.
  - intros names e Hss Hnames Hcs Hstop.
    rewrite <- ?app_assoc in *. simpl in *.
    rewrite Hss in Hout. simpl in Hout. rewrite <- ?app_assoc in Hout.
    simpl in Hout. rewrite Hnames in Hout. simpl in Hout.
    rewrite <- ?app_assoc in Hout. simpl in Hout.
    rewrite Hcs in Hout. simpl in Hout.
    rewrite <- ?app_assoc in Hout. simpl in Hout.
    rewrite Hstop in Hout. simpl in Hout.
    rewrite <- ?app_assoc in Hout. simpl in Hout.
    destruct (container_stop E _ _) as [[]|e'];
      simpl in Hout; injection Hout as <- <-; simpl; rewrite <- ?app_assoc; done.
Qed.

(** Collaborators that all succeed, except for the outcome of starting
    the services, of starting the container and of stopping it. *)
Module Faults.

Definition mk_env (services_start container_start' container_stop' : Res unit)
    (script_rc : list string -> Res Z) : Env :=
  {| uuid4 := uuid4 Scenario.env_ok; slugify := slugify Scenario.env_ok;
     start_services := fun _ _ => services_start;
     get_services_names := get_services_names Scenario.env_ok;
     stop_services := stop_services Scenario.env_ok;
     container_start := fun _ _ => container_start';
     container_stop := fun _ _ => container_stop';
     run_script := fun _ cmds env _ =>
                     match env with
                     | None => script_rc cmds
                     | Some _ => Ok 0
                     end;
     run_command := run_command Scenario.env_ok;
     put_archive := put_archive Scenario.env_ok;
     get_archive := get_archive Scenario.env_ok;
     expand_path := expand_path Scenario.env_ok;
     artifact_upload := artifact_upload Scenario.env_ok;
     artifact_download := artifact_download Scenario.env_ok;
     get_git_current_branch := get_git_current_branch Scenario.env_ok;
     get_local_cache_directory := get_local_cache_directory Scenario.env_ok |}.

Definition no_daemon : exn := ExternalError "docker: daemon not reachable".

Definition env_container_does_not_start : Env :=
  mk_env (Ok tt) (Raise no_daemon) (Ok tt) Scenario.script_status.

Definition env_container_does_not_stop : Env :=
  mk_env (Ok tt) (Ok tt) (Raise no_daemon) Scenario.script_status.

End Faults.

Lemma stop_follows_failed_start_witness :
  let out := StepRunnerFactory_get_run Faults.env_container_does_not_start
               Scenario.cfg spec_CloneSettings_default Scenario.defs
               (StepNode (Scenario.mk_step "A" 0)) "run-1" "step-1" Scenario.st0 in
  List.filter is_release (trace out.2)
  = [EvStopServices (Scenario.sm_of "A"); EvContainerStop (Scenario.cr_of "A")]
  /\ out.1 = Raise Faults.no_daemon.
Proof.
  intros out.
  destruct (proj2 (stop_follows_failed_start Faults.env_container_does_not_start
                     Scenario.cfg spec_CloneSettings_default
                     (Scenario.mk_step "A" 0) "run-1" "step-1" Scenario.defs
                     Scenario.st0 eq_refl)
              ["postgres"; "redis"] Faults.no_daemon
              eq_refl eq_refl eq_refl eq_refl) as [Ht Hr].
  unfold out. rewrite Ht, Hr. split; vm_compute; reflexivity.
Defined.

(** X12.  How the [finally] block decides what leaves [run].  Take a step
    that is not skipped, whose services and container were started, and
    whose Setup, scripts and Teardown ended in the result [r], an exit code
    or an error.  The services are stopped; if that raises, its error
    leaves [run] and the container is not stopped.  Otherwise the container
    is stopped; if that raises, its error leaves [run].  Only when both
    stops return does [r] leave [run]: an error as it is, an exit code
    after the closing notice. *)
Theorem release_decides_the_outcome
    (E : Env) (config : Config) (d : CloneSettings) (s : Step)
    (pu su : string) (defs : Pipelines) (st : State)
    (cr : ContainerRunner) (st1 : State) (r : Res Z) (st2 : State) :
  _should_run config s = true ->
  run_acquire E config s defs (step_started s su st) = (Ok cr, st1) ->
  run_lifecycle E config d s pu su defs cr st1 = (r, st2) ->
  let sm := services_manager_of E config s defs in
  let st3 := emit (EvStopServices sm) st2 in
  let st4 := emit (EvContainerStop cr) st3 in
  StepRunner_run E config d s pu su defs st
  = match stop_services E sm (trace st2) with
    | Raise e => (Raise e, st3)
    | Ok _ =>
        match container_stop E cr (trace st3) with
        | Raise e => (Raise e, st4)
        | Ok _ =>
            match r with
            | Ok c =>
                (Ok (Some c),
                 emit (EvLog INFO "Step '%s' executed in %.3fs with exit code: %s"
                         [AStr (name s); AElapsed; AInt c]) st4)
            | Raise e => (Raise e, st4)
            end
        end
    end.
Proof.
  intros Hrun Hacq Hlife sm st3 st4. subst st4 st3 sm.
  rewrite (StepRunner_run_unfold _ _ _ _ _ _ _ _ Hrun).
  unfold try_finally, bind at 1. rewrite Hacq, Hlife.
  destruct (run_acquire_ok _ _ _ _ _ _ _ Hacq) as (Hsm & Hcr & _ & _).
  destruct (steady_run_lifecycle E config d s pu su defs cr st1) as [Hsm2 Hcr2].
  rewrite Hlife in Hsm2, Hcr2. simpl in Hsm2, Hcr2.
  rewrite (run_release_spec E st2 (services_manager_of E config s defs) cr)
    by congruence.
  destruct (stop_services E _ (trace st2)) as [[]|e]; [|done].
  simpl trace.
  destruct (container_stop E cr _) as [[]|e]; [|done].
  by destruct r.
Qed.

Lemma release_decides_the_outcome_witness :
  let s := Scenario.mk_step "A" 5 in
  let out := StepRunner_run Faults.env_container_does_not_stop Scenario.cfg
               spec_CloneSettings_default s "run-1" "step-1" Scenario.defs
               Scenario.st0 in
  out.1 = Raise Faults.no_daemon.
Proof.
  intros s out.
  assert (Hacq : (run_acquire Faults.env_container_does_not_stop Scenario.cfg s
                    Scenario.defs (step_started s "step-1" Scenario.st0)).1
                 = Ok (Scenario.cr_of "A")) by (vm_compute; reflexivity).
  assert (Hlife : (run_lifecycle Faults.env_container_does_not_stop Scenario.cfg
                     spec_CloneSettings_default s "run-1" "step-1" Scenario.defs
                     (Scenario.cr_of "A")
                     (run_acquire Faults.env_container_does_not_stop Scenario.cfg s
                        Scenario.defs (step_started s "step-1" Scenario.st0)).2).1
                  = Ok 5) by (vm_compute; reflexivity).
  unfold out.
  rewrite (release_decides_the_outcome Faults.env_container_does_not_stop
             Scenario.cfg spec_CloneSettings_default s "run-1" "step-1"
             Scenario.defs Scenario.st0 _ _ _ _ eq_refl
             (run_result _ _ Hacq) (run_result _ _ Hlife)).
  reflexivity.
Defined.

(** ** Release over a whole pipeline *)

(** The stop that answers a start. *)
Definition release_of (ev : Event) : Event :=
  match ev with
  | EvStartServices sm => EvStopServices sm
  | EvContainerStart cr => EvContainerStop cr
  | _ => ev
  end.

(** [balanced m]: the stops that [m] records are those of the starts it
    records, in the same order. *)
Definition balanced {A} (m : M A) : Prop :=
  forall st, exists evs,
    trace (m st).2 = trace st ++ evs
    /\ List.filter is_release evs = release_of <$> List.filter is_acquire evs.

Lemma balanced_bind {A B} (m : M A) (k : A -> M B) :
  balanced m -> (forall a, balanced (k a)) -> balanced (bind m k).
Proof.
  intros Hm Hk st. unfold bind.
  destruct (Hm st) as (evs & Ht & Hf).
  destruct (m st) as [[a|e] st1]; simpl in *.
  - destruct (Hk a st1) as (evs' & Ht' & Hf').
    exists (evs ++ evs'). rewrite Ht', Ht, app_assoc. split; [done|].
    by rewrite !List.filter_app, fmap_app, Hf, Hf'.
  - exists evs. auto.
Qed.

Lemma balanced_quiet {A} (P : Event -> Prop) (m : M A) :
  (forall ev, P ev -> is_acquire ev = false /\ is_release ev = false) ->
  emits P m -> balanced m.
Proof.
  intros HP Hm st. destruct (Hm st) as (evs & Ht & Hall).
  exists evs. split; [done|].
  clear Ht. induction Hall as [|ev evs Hev _ IH]; [done|].
  destruct (HP _ Hev) as [Ha Hr]. simpl. by rewrite Ha, Hr.
Qed.

Lemma balanced_silent {A} (m : M A) :
  (forall st, trace (m st).2 = trace st) -> balanced m.
Proof. intros H st. exists []. by rewrite H, app_nil_r. Qed.

Lemma balanced_ret {A} (a : A) : balanced (ret a).
Proof. intros st. exists []. simpl. by rewrite app_nil_r. Qed.

Section Balanced.

Variable E : Env.
Variable config : Config.
Variable d : CloneSettings.
Variable defs : Pipelines.
Hypothesis stop_returns : forall sm h, stop_services E sm h = Ok tt.

Lemma balanced_step s pu su :
  balanced (StepRunnerFactory_get_run E config d defs (StepNode s) pu su).
Proof.
  destruct (_should_run config s) eqn:Hrun.
  - intros st.
    destruct (emits_StepRunnerFactory_get_run E config d defs (StepNode s) pu su st)
      as (evs & Ht & _).
    exists evs. split; [done|].
    pose proof (guaranteed_release E config d s pu su defs st Hrun stop_returns) as H.
    cbv zeta in H. rewrite (new_events_app _ _ _ Ht) in H.
    by destruct H as [[-> ->]|(cr & -> & ->)].
  - simpl. apply balanced_bind; [by apply balanced_silent|intros _].
    unfold StepRunner_run. rewrite Hrun. simpl.
    intros st. eexists. unfold bind, log, ret. simpl. split; done.
Qed.

Lemma balanced_parallel_loop run pu su steps acc :
  Forall (fun c => balanced (run c pu su)) steps ->
  balanced (parallel_loop run pu su steps acc).
Proof.
  intros Hall. revert acc.
  induction Hall as [|c steps Hc _ IH]; intros acc; simpl.
  - apply balanced_ret.
  - apply balanced_bind; [exact Hc | intros rc; apply IH].
Qed.

Lemma balanced_node n :
  forall pu su, balanced (StepRunnerFactory_get_run E config d defs n pu su).
Proof.
  induction n as [s|pname steps IH] using Node_ind'; intros pu su.
  - apply balanced_step.
  - simpl. apply balanced_bind; [by apply balanced_silent|intros _].
    unfold ParallelStepRunner_run. apply balanced_parallel_loop.
    eapply Forall_impl; [exact IH|]. intros c Hc. apply Hc.
Qed.

Lemma balanced_execute_pipeline _uuid steps :
  balanced (_execute_pipeline E config d defs _uuid steps).
Proof.
  induction steps as [|n steps IH]; simpl; [apply balanced_ret|].
  apply balanced_bind.
  - intros st. exists [EvUuid4]. done.
  - intros su. apply balanced_bind; [apply balanced_node|].
    intros rc. destruct (truthy rc); [apply balanced_ret|exact IH].
Qed.

End Balanced.

(** X13.  Over a whole pipeline, parallel groups included, and whatever
    exit codes and errors occur: as long as stopping services returns,
    every services manager and every container that a step started, or
    tried to start, is stopped, once, in the order of the starts, and
    nothing else is stopped. *)
Theorem pipeline_releases_what_it_acquires
    (E : Env) (config : Config) (d : CloneSettings) (defs : Pipelines)
    (_uuid : string) (steps : list Node) (st : State) :
  (forall sm h, stop_services E sm h = Ok tt) ->
  let out := _execute_pipeline E config d defs _uuid steps st in
  let evs := new_events st out.2 in
  List.filter is_release evs = release_of <$> List.filter is_acquire evs.
Proof.
  intros Hstop out evs. subst evs out.
  destruct (balanced_execute_pipeline E config d defs Hstop _uuid steps st)
    as (evs & Ht & Hf).
  by rewrite (new_events_app _ _ _ Ht).
Qed.

Lemma pipeline_releases_what_it_acquires_witness :
  let A := StepNode (Scenario.mk_step "A" 0) in
  let X := StepNode (Scenario.mk_step "X" 3) in
  let Y := StepNode (Scenario.mk_step "Y" 0) in
  let out := _execute_pipeline Scenario.env_ok Scenario.cfg
               spec_CloneSettings_default Scenario.defs "run-1"
               [A; ParallelNode "group" [X; Y]] Scenario.st0 in
  List.filter is_release (new_events Scenario.st0 out.2)
  = [EvStopServices (Scenario.sm_of "A"); EvContainerStop (Scenario.cr_of "A");
     EvStopServices (Scenario.sm_of "X"); EvContainerStop (Scenario.cr_of "X");
     EvStopServices (Scenario.sm_of "Y"); EvContainerStop (Scenario.cr_of "Y")].
Proof.
  intros A X Y out.
  pose proof (pipeline_releases_what_it_acquires Scenario.env_ok Scenario.cfg
                spec_CloneSettings_default Scenario.defs "run-1"
                [A; ParallelNode "group" [X; Y]] Scenario.st0
                (fun _ _ => eq_refl)) as H.
  cbv zeta in H. fold A X Y in H. fold out in H.
  rewrite H. vm_compute. reflexivity.
Defined.

(** ** Errors and results in groups and in the driver *)

Lemma parallel_loop_raises run pu su pre child post acc st rcs st1 e st2 :
  run_children (fun s => run s pu su) pre st = Some (rcs, st1) ->
  run child pu su st1 = (Raise e, st2) ->
  parallel_loop run pu su (pre ++ child :: post) acc st = (Raise e, st2).
Proof.
  revert acc st rcs. induction pre as [|s pre IH]; intros acc st rcs Hpre Hchild.
  - simpl in Hpre. injection Hpre as <- <-. simpl. unfold bind. by rewrite Hchild.
  - simpl in Hpre. simpl. unfold bind.
    destruct (run s pu su st) as [[rc|e'] st0]; [|done].
    destruct (run_children _ pre st0) as [[rcs1 st3]|] eqn:Hrest; [|done].
    injection Hpre as <- <-. eauto.
Qed.

Lemma parallel_loop_returns run pu su steps acc st rc st' :
  parallel_loop run pu su steps acc st = (Ok rc, st') ->
  exists rcs, run_children (fun s => run s pu su) steps st = Some (rcs, st').
Proof.
  revert acc st. induction steps as [|s steps IH]; intros acc st Hrun.
  - simpl in Hrun. injection Hrun as <- <-. by exists [].
  - simpl in Hrun. unfold bind in Hrun. simpl.
    destruct (run s pu su st) as [[rc1|e] st1]; [|done].
    destruct (IH _ _ Hrun) as (rcs & ->). by eexists.
Qed.

Lemma run_children_one run s st rc :
  (run s st).1 = Ok rc -> run_children run [s] st = Some ([rc], (run s st).2).
Proof. intros H. simpl. destruct (run s st) as [r st1]. simpl in H. by subst. Qed.

(** X14.  A child of a parallel group that raises ends the group: when
    the children before it returned, whatever their exit codes, the error
    of the child leaves the group in the state the child left, and the
    children after it are not run. *)
Theorem parallel_group_stops_at_raising_child
    (E : Env) (config : Config) (d : CloneSettings) (defs : Pipelines)
    (pname : string) (pre post : list Node) (child : Node) (pu su : string)
    (st : State) (rcs : list (option Z)) (st1 : State) (e : exn) (st2 : State) :
  run_children (fun s => StepRunnerFactory_get_run E config d defs s pu su)
    pre (StepRunner_init st).2 = Some (rcs, st1) ->
  StepRunnerFactory_get_run E config d defs child pu su st1 = (Raise e, st2) ->
  StepRunnerFactory_get_run E config d defs
    (ParallelNode pname (pre ++ child :: post)) pu su st
  = (Raise e, st2).
Proof.
  intros Hpre Hchild. simpl. unfold bind at 1.
  rewrite (surjective_pairing (StepRunner_init st)).
  change (StepRunner_init st).1 with (@Ok unit tt).
  unfold ParallelStepRunner_run.
  by eapply parallel_loop_raises.
Qed.

Lemma parallel_group_stops_at_raising_child_witness :
  let X := StepNode (Scenario.mk_step "X" 3) in
  let Y := StepNode (Scenario.mk_step "Y" 0) in
  let Z := StepNode (Scenario.mk_step "Z" 0) in
  let E := Scenario.mk_env
             (fun cmds => if bool_decide (cmds = Scenario.exit_script 0)
                          then Raise (ExternalError "docker: exec failed")
                          else Scenario.script_status cmds)
             Scenario.command_ok (Ok tt) (Ok Scenario.empty_archive) in
  let out := StepRunnerFactory_get_run E Scenario.cfg
               spec_CloneSettings_default Scenario.defs
               (ParallelNode "group" [X; Y; Z]) "run-1" "step-1" Scenario.st0 in
  out.1 = Raise (ExternalError "docker: exec failed")
  /\ running_steps (trace out.2) = ["X"; "Y"].
Proof.
  intros X Y Z E out.
  assert (HX : (StepRunnerFactory_get_run E Scenario.cfg
                  spec_CloneSettings_default Scenario.defs X
                  "run-1" "step-1" (StepRunner_init Scenario.st0).2).1
               = Ok (Some 3)) by (vm_compute; reflexivity).
  assert (Hrun : run_children
                   (fun s => StepRunnerFactory_get_run E Scenario.cfg
                               spec_CloneSettings_default Scenario.defs s
                               "run-1" "step-1")
                   [X] (StepRunner_init Scenario.st0).2
                 = Some ([Some 3],
                         (StepRunnerFactory_get_run E Scenario.cfg
                            spec_CloneSettings_default Scenario.defs X
                            "run-1" "step-1" (StepRunner_init Scenario.st0).2).2)).
  { exact (run_children_one
             (fun s => StepRunnerFactory_get_run E Scenario.cfg
                         spec_CloneSettings_default Scenario.defs s
                         "run-1" "step-1")
             X (StepRunner_init Scenario.st0).2 (Some 3) HX). }
  assert (HY : (StepRunnerFactory_get_run E Scenario.cfg
                  spec_CloneSettings_default Scenario.defs Y
                  "run-1" "step-1"
                  (StepRunnerFactory_get_run E Scenario.cfg
                     spec_CloneSettings_default Scenario.defs X
                     "run-1" "step-1" (StepRunner_init Scenario.st0).2).2).1
               = Raise (ExternalError "docker: exec failed"))
    by (vm_compute; reflexivity).
  split.
  - exact (f_equal fst
             (parallel_group_stops_at_raising_child E Scenario.cfg
                spec_CloneSettings_default Scenario.defs "group" [X] [Z] Y
                "run-1" "step-1" Scenario.st0 _ _ _ _ Hrun (run_result _ _ HY))).
  - vm_compute. reflexivity.
Defined.

(** X15.  A parallel group that returns has run each of its children to
    its end, and it returns an exit code, never [None]: the last non-zero
    exit code of the children, or 0 -- also when the group is empty or when
    every child was skipped. *)
Theorem parallel_group_returns_a_code
    (E : Env) (config : Config) (d : CloneSettings) (defs : Pipelines)
    (pname : string) (steps : list Node) (pu su : string)
    (st : State) (rc : option Z) (st' : State) :
  StepRunnerFactory_get_run E config d defs (ParallelNode pname steps) pu su st
  = (Ok rc, st') ->
  exists rcs,
    run_children (fun s => StepRunnerFactory_get_run E config d defs s pu su)
      steps (StepRunner_init st).2 = Some (rcs, st')
    /\ rc = Some (last_nonzero rcs)
    /\ (Forall (fun c => truthy c = false) rcs -> rc = Some 0).
Proof.
  simpl. unfold bind at 1.
  rewrite (surjective_pairing (StepRunner_init st)).
  change (StepRunner_init st).1 with (@Ok unit tt).
  unfold ParallelStepRunner_run. intros Hrun.
  destruct (parallel_loop_returns _ _ _ _ _ _ _ _ Hrun) as (rcs & Hch).
  exists rcs. split; [exact Hch|].
  rewrite (parallel_loop_children _ _ _ _ 0 _ _ _ Hch) in Hrun.
  injection Hrun as <-. split; [reflexivity|].
  intros Hall. f_equal. unfold last_nonzero.
  replace (filter (fun c : Z => c <> 0) (omap id rcs)) with (@nil Z); [done|].
  clear Hch. induction Hall as [|c rcs Hc _ IH]; [done|].
  destruct c as [c|]; simpl in *; [|exact IH].
  rewrite filter_cons. destruct (decide (c <> 0)) as [Hne|_]; [|exact IH].
  apply Z.eqb_neq in Hne. by rewrite Hne in Hc.
Qed.

Lemma parallel_group_returns_a_code_witness :
  let cfg := {| project_slug := "proj"; selected_steps := ["deploy"];
                default_image := "alpine";
                build_container_base_memory_limit := 1024;
                remote_workspace_dir := "/var/run/workspace" |} in
  let X := StepNode (Scenario.mk_step "X" 3) in
  let out := StepRunnerFactory_get_run Scenario.env_ok cfg
               spec_CloneSettings_default Scenario.defs
               (ParallelNode "group" [X]) "run-1" "step-1" Scenario.st0 in
  exists rcs,
    run_children
      (fun s => StepRunnerFactory_get_run Scenario.env_ok cfg
                  spec_CloneSettings_default Scenario.defs s "run-1" "step-1")
      [X] (StepRunner_init Scenario.st0).2 = Some (rcs, out.2)
    /\ Some 0 = Some (last_nonzero rcs)
    /\ (Forall (fun c => truthy c = false) rcs -> Some 0 = Some 0).
Proof.
  intros cfg X out.
  assert (Hout : out.1 = Ok (Some 0)) by (vm_compute; reflexivity).
  exact (parallel_group_returns_a_code Scenario.env_ok cfg
           spec_CloneSettings_default Scenario.defs "group" [X]
           "run-1" "step-1" Scenario.st0 (Some 0) out.2 (run_result _ _ Hout)).
Defined.

(** X16.  What the driver returns.  When [_execute_pipeline] returns, it
    returns either nothing, and then every step of the list was run, in
    order, and passed; or a non-zero exit code.  It never returns 0: a
    step that ends with exit code 0 lets the loop go on, and the loop ends
    without a [return]. *)
Theorem pipeline_result_is_none_or_failure
    (E : Env) (config : Config) (d : CloneSettings) (defs : Pipelines)
    (_uuid : string) (steps : list Node) (st : State)
    (rc : option Z) (st' : State) :
  _execute_pipeline E config d defs _uuid steps st = (Ok rc, st') ->
  (rc = None <-> steps_pass E config d defs _uuid steps st st')
  /\ (forall c, rc = Some c -> c <> 0).
Proof.
  intros Hrun. split; [split|].
  - intros ->. revert st Hrun.
    induction steps as [|n steps IH]; intros st Hrun.
    + simpl in Hrun. injection Hrun as <-. constructor.
    + rewrite execute_pipeline_cons in Hrun. unfold bind in Hrun.
      destruct (pipeline_turn E config d defs _uuid n st) as [[rc|e] st1] eqn:Hturn;
        [|done].
      destruct (truthy rc) eqn:Hrc.
      * destruct rc; [|done]. discriminate.
      * eapply pass_cons; eauto.
  - intros Hpass. apply steps_pass_execute in Hpass. congruence.
  - revert st Hrun. induction steps as [|n steps IH]; intros st Hrun c ->.
    + discriminate.
    + rewrite execute_pipeline_cons in Hrun. unfold bind in Hrun.
      destruct (pipeline_turn E config d defs _uuid n st) as [[rc|e] st1]; [|done].
      destruct (truthy rc) eqn:Hrc.
      * injection Hrun as -> <-. simpl in Hrc.
        intros ->. discriminate.
      * by eapply IH.
Qed.

Lemma pipeline_result_is_none_or_failure_witness :
  let A := StepNode (Scenario.mk_step "A" 0) in
  let B := StepNode (Scenario.mk_step "B" 0) in
  let out := _execute_pipeline Scenario.env_ok Scenario.cfg
               spec_CloneSettings_default Scenario.defs "run-1"
               [A; B] Scenario.st0 in
  steps_pass Scenario.env_ok Scenario.cfg spec_CloneSettings_default
    Scenario.defs "run-1" [A; B] Scenario.st0 out.2.
Proof.
  intros A B out.
  assert (Hout : out.1 = Ok None) by (vm_compute; reflexivity).
  exact (proj1 (proj1 (pipeline_result_is_none_or_failure Scenario.env_ok
                         Scenario.cfg spec_CloneSettings_default Scenario.defs
                         "run-1" [A; B] Scenario.st0 None out.2
                         (run_result _ _ Hout)))
           eq_refl).
Defined.

(** X17.  A step that raises ends the pipeline: when the steps before it
    passed, the error leaves the driver in the state the step left, and
    the steps after it are not run. *)
Theorem raising_step_stops_the_pipeline
    (E : Env) (config : Config) (d : CloneSettings) (defs : Pipelines)
    (_uuid : string) (pre post : list Node) (s : Node) (e : exn)
    (st st1 st2 : State) :
  steps_pass E config d defs _uuid pre st st1 ->
  pipeline_turn E config d defs _uuid s st1 = (Raise e, st2) ->
  _execute_pipeline E config d defs _uuid (pre ++ s :: post) st
  = (Raise e, st2).
Proof.
  intros Hpre Hs. apply steps_pass_execute in Hpre.
  rewrite (execute_pipeline_app _ _ _ _ _ _ _ _ _ Hpre).
  rewrite execute_pipeline_cons. unfold bind. by rewrite Hs.
Qed.

Lemma raising_step_stops_the_pipeline_witness :
  let A := StepNode (Scenario.mk_step "A" 0) in
  let B := StepNode (Scenario.mk_step "B" 5) in
  let C := StepNode (Scenario.mk_step "C" 0) in
  let E := Scenario.mk_env
             (fun cmds => if bool_decide (cmds = Scenario.exit_script 5)
                          then Raise (ExternalError "docker: exec failed")
                          else Scenario.script_status cmds)
             Scenario.command_ok (Ok tt) (Ok Scenario.empty_archive) in
  _execute_pipeline E Scenario.cfg spec_CloneSettings_default Scenario.defs
    "run-1" ([A] ++ B :: [C]) Scenario.st0
  = (Raise (ExternalError "docker: exec failed"),
     (pipeline_turn E Scenario.cfg spec_CloneSettings_default Scenario.defs
        "run-1" B
        (pipeline_turn E Scenario.cfg spec_CloneSettings_default Scenario.defs
           "run-1" A Scenario.st0).2).2).
Proof.
  intros A B C E.
  assert (H1 : (pipeline_turn E Scenario.cfg
                  spec_CloneSettings_default Scenario.defs "run-1" A
                  Scenario.st0).1 = Ok (Some 0))
    by (vm_compute; reflexivity).
  assert (H2 : (pipeline_turn E Scenario.cfg
                  spec_CloneSettings_default Scenario.defs "run-1" B
                  (pipeline_turn E Scenario.cfg
                     spec_CloneSettings_default Scenario.defs "run-1" A
                     Scenario.st0).2).1
               = Raise (ExternalError "docker: exec failed"))
    by (vm_compute; reflexivity).
  exact (raising_step_stops_the_pipeline E Scenario.cfg
           spec_CloneSettings_default Scenario.defs "run-1"
           [A] [C] B _ Scenario.st0 _ _
           (pass_cons _ _ _ _ _ A [] _ _ _ _
              (run_result _ _ H1) eq_refl (pass_nil _ _ _ _ _ _))
           (run_result _ _ H2)).
Defined.

(** ** Identifiers over a whole pipeline *)

(** What a pipeline run under the identifier [_uuid] may record: every
    artifact transfer is made under [_uuid]. *)
Definition pipeline_event (_uuid : string) (ev : Event) : Prop :=
  match ev with
  | EvArtifactUpload _ p _ => p = _uuid
  | EvArtifactDownload _ p _ _ => p = _uuid
  | _ => True
  end.

Lemma step_pipeline_event pu su ev : step_event pu su ev -> pipeline_event pu ev.
Proof. destruct ev; simpl; tauto. Qed.

Lemma emits_execute_pipeline E config d defs _uuid steps :
  emits (pipeline_event _uuid) (_execute_pipeline E config d defs _uuid steps).
Proof.
  induction steps as [|n steps IH]; simpl; [apply emits_ret|].
  apply emits_bind; [by apply emits_call|intros su].
  apply emits_bind.
  - eapply emits_mono; [apply step_pipeline_event|].
    apply emits_StepRunnerFactory_get_run.
  - intros rc. destruct (truthy rc); [apply emits_ret|exact IH].
Qed.

(** The identifier draws of a trace. *)
Definition is_uuid4 (ev : Event) : bool :=
  match ev with EvUuid4 => true | _ => false end.

Lemma step_event_no_draw pu su evs :
  Forall (step_event pu su) evs -> List.filter is_uuid4 evs = [].
Proof.
  induction 1 as [|ev evs Hev _ IH]; [done|]. by destruct ev.
Qed.

Lemma execute_pipeline_draws E config d defs _uuid steps st r st' :
  _execute_pipeline E config d defs _uuid steps st = (r, st') ->
  exists evs,
    trace st' = trace st ++ evs
    /\ (length (List.filter is_uuid4 evs) <= length steps)%nat
    /\ (r = Ok None -> length (List.filter is_uuid4 evs) = length steps).
Proof.
  revert st. induction steps as [|n steps IH]; intros st Hrun.
  - injection Hrun as <- <-. exists []. by rewrite app_nil_r.
  - rewrite execute_pipeline_cons in Hrun. unfold bind at 1 in Hrun.
    unfold pipeline_turn, new_uuid in Hrun.
    unfold bind at 1, call at 1 in Hrun.
    destruct (emits_StepRunnerFactory_get_run E config d defs n _uuid
                (uuid4 E (trace st)) (emit EvUuid4 st)) as (evs1 & Ht1 & Hev1).
    apply step_event_no_draw in Hev1.
    destruct (StepRunnerFactory_get_run E config d defs n _uuid
                (uuid4 E (trace st)) (emit EvUuid4 st)) as [[rc|e] st1].
    + simpl in Ht1. destruct (truthy rc) eqn:Hrc.
      * injection Hrun as <- <-.
        exists (EvUuid4 :: evs1). rewrite Ht1, <- app_assoc.
        split; [done|]. simpl. rewrite Hev1. simpl. split; [lia|].
        intros [= ->]. done.
      * destruct (IH st1 Hrun) as (evs2 & Ht2 & Hle & Heq).
        exists (EvUuid4 :: evs1 ++ evs2). rewrite Ht2, Ht1.
        rewrite <- !app_assoc. split; [done|]. simpl.
        rewrite List.filter_app, Hev1. simpl. split; [lia|].
        intros H. by rewrite (Heq H).
    + simpl in Ht1. injection Hrun as <- <-.
      exists (EvUuid4 :: evs1). rewrite Ht1, <- app_assoc.
      split; [done|]. simpl. rewrite Hev1. simpl. split; [lia|done].
Qed.

(** X18.  Identifiers over a pipeline run.  Every artifact transfer of
    the run, in whatever step or group, is made under the run's own
    identifier.  One step identifier is drawn for each top-level step that
    is reached and none anywhere else, so at most as many as there are
    top-level steps, and exactly as many when the pipeline passes. *)
Theorem pipeline_identifiers
    (E : Env) (config : Config) (d : CloneSettings) (defs : Pipelines)
    (_uuid : string) (steps : list Node) (st : State) :
  let out := _execute_pipeline E config d defs _uuid steps st in
  let evs := new_events st out.2 in
  Forall (pipeline_event _uuid) evs
  /\ (length (List.filter is_uuid4 evs) <= length steps)%nat
  /\ (out.1 = Ok None -> length (List.filter is_uuid4 evs) = length steps).
Proof.
  intros out evs. subst evs out. split.
  - apply emits_new_events, emits_execute_pipeline.
  - destruct (execute_pipeline_draws E config d defs _uuid steps st _ _
                (surjective_pairing _)) as (evs & Ht & H).
    by rewrite (new_events_app _ _ _ Ht).
Qed.

Lemma pipeline_identifiers_witness :
  let A := StepNode (Scenario.mk_step "A" 0) in
  let B := StepNode (Scenario.mk_step "B" 0) in
  let out := _execute_pipeline Scenario.env_ok Scenario.cfg
               spec_CloneSettings_default Scenario.defs "run-1"
               [A; B] Scenario.st0 in
  length (List.filter is_uuid4 (new_events Scenario.st0 out.2)) = 2%nat.
Proof.
  intros A B out.
  assert (Hout : out.1 = Ok None) by (vm_compute; reflexivity).
  exact (proj2 (proj2 (pipeline_identifiers Scenario.env_ok Scenario.cfg
                         spec_CloneSettings_default Scenario.defs "run-1"
                         [A; B] Scenario.st0)) Hout).
Defined.

(** ** Checkout *)

(** X19.  What [_clone_repository] does when it does not fail.  When the
    effective [enabled] setting is not true -- false, or unset at all
    three levels -- only the notice is logged: the branch is not asked for
    and no command is sent, whether or not a container exists.  When it is
    true and both commands exit with 0, the branch is asked for once, then
    the clone command and the reset command are sent to the container, in
    that order, and nothing else happens.  When the current branch cannot
    be determined, the error leaves the checkout before any command. *)
Theorem clone_repository_outcomes
    (E : Env) (config : Config) (d : CloneSettings) (s : Step)
    (defs : Pipelines) (st : State) :
  let out := _clone_repository E config d s defs st in
  (_should_clone d s defs <> Some true ->
     out = (Ok tt, emit (EvLog INFO "Clone disabled: skipping" []) st))
  /\ (forall cr branch,
        _should_clone d s defs = Some true ->
        self_container_runner st = Some cr ->
        get_git_current_branch E (trace st) = Ok branch ->
        let h := trace st ++ [EvGitCurrentBranch] in
        let clone := EvRunCommand cr (CmdArgv (clone_cmd config d s defs branch)) in
        let reset := EvRunCommand cr (CmdArgv reset_cmd) in
        run_command E cr (CmdArgv (clone_cmd config d s defs branch)) h
          = Ok (ResCode 0) ->
        run_command E cr (CmdArgv reset_cmd) (h ++ [clone]) = Ok (ResCode 0) ->
        out.1 = Ok tt /\ trace out.2 = h ++ [clone; reset] /\ fs out.2 = fs st)
  /\ (forall e,
        _should_clone d s defs = Some true ->
        get_git_current_branch E (trace st) = Raise e ->
        out = (Raise e, emit EvGitCurrentBranch st)).
Proof.
  intros out. subst out.
  destruct (_clone_repository E config d s defs st) as [r st'] eqn:Hout.
  unfold _clone_repository in Hout.
  split; [|split].
  - intros Hoff.
    destruct (_should_clone d s defs) as [[|]|]; [done| |];
      simpl in Hout; unfold log in Hout; by injection Hout as <- <-.
  - intros cr branch Hon Hcr Hbranch h clone reset Hclone Hreset.
    rewrite Hon in Hout. simpl in Hout.
    unfold bind, call, the_container_runner, ret in Hout.
    rewrite Hbranch in Hout. simpl in Hout. rewrite Hcr in Hout.
    subst h clone reset. simpl in Hout.
    rewrite Hclone in Hout. simpl in Hout.
    rewrite Hreset in Hout. simpl in Hout.
    injection Hout as <- <-. simpl. by rewrite <- !app_assoc.
  - intros e Hon Hbranch.
    rewrite Hon in Hout. simpl in Hout.
    unfold bind, call in Hout. rewrite Hbranch in Hout.
    by injection Hout as <- <-.
Qed.

Lemma clone_repository_outcomes_witness :
  let s := {| name := "A"; script := []; after_script := []; image := None;
              clone_settings := {| depth := None; lfs := None;
                                   enabled := Some false |};
              size := 1; services := []; caches := []; artifacts := [] |} in
  let on := Scenario.mk_step "B" 0 in
  let cr := Scenario.cr_of "B" in
  _clone_repository Scenario.env_ok Scenario.cfg spec_CloneSettings_default s
    Scenario.defs Scenario.st0
  = (Ok tt, emit (EvLog INFO "Clone disabled: skipping" []) Scenario.st0)
  /\ trace (_clone_repository Scenario.env_ok Scenario.cfg
              spec_CloneSettings_default on Scenario.defs
              (Scenario.st_running "B")).2
     = [EvGitCurrentBranch;
        EvRunCommand cr (CmdArgv ["git"; "clone"; "--branch"; "main";
                                  "file:///var/run/workspace"; "$BUILD_DIR"]);
        EvRunCommand cr (CmdArgv ["git"; "reset"; "--hard"; "$BITBUCKET_COMMIT"])].
Proof.
  intros s on cr. split.
  - apply (proj1 (clone_repository_outcomes Scenario.env_ok Scenario.cfg
                    spec_CloneSettings_default s Scenario.defs Scenario.st0)).
    discriminate.
  - apply (proj1 (proj2 (proj1 (proj2
             (clone_repository_outcomes Scenario.env_ok Scenario.cfg
                spec_CloneSettings_default on Scenario.defs
                (Scenario.st_running "B")))
             cr "main" eq_refl eq_refl eq_refl eq_refl eq_refl))).
Defined.

(** X20.  The two call sites of [run_command] read its answer in
    different ways.  [_clone_repository] tests the answer as a status: an
    answer that is a pair is true whatever it holds, so the checkout fails
    even when the pair's status is 0, and the reset command is not sent.
    [_upload_cache] unpacks the answer as a pair: an answer that is a bare
    status raises a [TypeError], also when the status is 0, and the
    archive is not sent.  No single shape of answer lets both a checkout
    and a cache upload pass. *)
Theorem run_command_answer_shapes
    (E : Env) (config : Config) (d : CloneSettings) (s : Step) (defs : Pipelines)
    (cr : ContainerRunner) :
  (forall st branch code output,
      _should_clone d s defs = Some true ->
      self_container_runner st = Some cr ->
      get_git_current_branch E (trace st) = Ok branch ->
      let clone := CmdArgv (clone_cmd config d s defs branch) in
      run_command E cr clone (trace st ++ [EvGitCurrentBranch])
        = Ok (ResPair code output) ->
      let out := _clone_repository E config d s defs st in
      out.1 = Raise (PyException "Error cloning repository")
      /\ trace out.2 = trace st ++ [EvGitCurrentBranch; EvRunCommand cr clone])
  /\ (forall st n c dir remote content code,
      CacheManager._should_ignore n = false ->
      get_local_cache_directory E (trace st) = Ok dir ->
      fs st !! os_path_join dir (n +:+ ".tar") = Some content ->
      def_caches defs !! n = Some c ->
      expand_path E cr (path c) (trace st ++ [EvLocalCacheDirectory]) = Ok remote ->
      let prepare := CmdShell (prepare_cache_dir_cmd remote) in
      let h := trace st ++ [EvLocalCacheDirectory; EvExpandPath cr (path c);
                            EvLog INFO "Cache '%s': Uploading" [AStr n]] in
      run_command E cr prepare h = Ok (ResCode code) ->
      let out := CacheManager._upload_cache E cr (def_caches defs) n st in
      out.1 = Raise (TypeError "cannot unpack non-iterable int object")
      /\ trace out.2 = h ++ [EvRunCommand cr prepare]).
Proof.
  split.
  - intros st branch code output Hon Hcr Hbranch clone Hclone out. subst out.
    destruct (_clone_repository E config d s defs st) as [r st'] eqn:Hout.
    unfold _clone_repository in Hout. rewrite Hon in Hout. simpl in Hout.
    unfold bind, call, the_container_runner, raise in Hout.
    rewrite Hbranch in Hout. simpl in Hout. rewrite Hcr in Hout.
    subst clone. simpl in Hout. rewrite Hclone in Hout. simpl in Hout.
    injection Hout as <- <-. simpl. by rewrite <- !app_assoc.
  - intros st n c dir remote content code Hign Hdir Hfile Hdef Hexp prepare h
      Hcmd out. subst out.
    destruct (CacheManager._upload_cache E cr (def_caches defs) n st)
      as [r st'] eqn:Hout.
    rewrite (upload_cache_prepared E cr (def_caches defs) n c st dir remote content
               Hign Hdir Hfile Hdef Hexp) in Hout.
    fold prepare in Hout.
    unfold bind at 1, call at 1 in Hout. simpl trace in Hout.
    rewrite <- !app_assoc in Hout. simpl in Hout. fold h in Hout.
    rewrite Hcmd in Hout. simpl in Hout.
    injection Hout as <- <-. simpl. subst h. by rewrite <- !app_assoc.
Qed.

Lemma run_command_answer_shapes_witness :
  let pair_env := Scenario.mk_env Scenario.script_status
                    (fun _ => Ok (ResPair 0 [])) (Ok tt)
                    (Ok Scenario.empty_archive) in
  let code_env := Scenario.mk_env Scenario.script_status
                    (fun _ => Ok (ResCode 0)) (Ok tt)
                    (Ok Scenario.empty_archive) in
  let s := Scenario.mk_step "A" 0 in
  let cr := Scenario.cr_of "A" in
  (_clone_repository pair_env Scenario.cfg spec_CloneSettings_default s
     Scenario.defs (Scenario.st_running "A")).1
  = Raise (PyException "Error cloning repository")
  /\ (CacheManager._upload_cache code_env cr (def_caches Scenario.defs) "pip"
        (Scenario.st_running "A")).1
     = Raise (TypeError "cannot unpack non-iterable int object").
Proof.
  intros pair_env code_env s cr. split.
  - apply (proj1 (run_command_answer_shapes pair_env Scenario.cfg
                    spec_CloneSettings_default s Scenario.defs cr)
             (Scenario.st_running "A") "main" 0 []
             eq_refl eq_refl eq_refl eq_refl).
  - apply (proj2 (run_command_answer_shapes code_env Scenario.cfg
                    spec_CloneSettings_default s Scenario.defs cr)
             (Scenario.st_running "A") "pip" {| path := "/root/.cache/pip" |}
             "/home/u/.cache/pipeline-runner" "/root/.cache/pip"
             Scenario.old_archive 0
             eq_refl eq_refl eq_refl eq_refl eq_refl eq_refl).
Defined.

(** ** Acquire *)

(** X21.  How a step's resources are wired.  When Acquire completes, the
    build container is named after the project and the step, its image is
    the step's, else the pipeline-level one, else the configured default,
    and its memory limit is the base limit times the step's size.  The
    container and the services manager are given the same data volume,
    named after the container, and the container is linked to the services
    that the manager reported once they were started. *)
Theorem acquire_wiring
    (E : Env) (config : Config) (s : Step) (defs : Pipelines)
    (st : State) (cr : ContainerRunner) (st1 : State) :
  run_acquire E config s defs st = (Ok cr, st1) ->
  let sm := services_manager_of E config s defs in
  cr_name cr = project_slug config +:+ "-step-" +:+ slugify E (name s)
  /\ cr_data_volume_name cr = cr_name cr +:+ "-data"
  /\ sm_data_volume_name sm = cr_data_volume_name cr
  /\ cr_mem_limit cr = build_container_base_memory_limit config * size s
  /\ cr_image cr
     = default (default {| image_name := default_image config |} (def_image defs))
         (image s)
  /\ get_services_names E sm (trace st ++ [EvStartServices sm])
     = Ok (cr_services_names cr)
  /\ sm_services sm = services s.
Proof.
  unfold run_acquire, services_manager_of.
  unfold bind, call, ret, set_services_manager, set_container_runner. simpl.
  destruct (start_services E _ _) as [[]|e]; [|done].
  destruct (get_services_names E _ _) as [names|e] eqn:Hnames; [|done].
  destruct (container_start E _ _) as [[]|e]; [|done].
  intros [= <- <-]. simpl. repeat split; try done.
Qed.

Lemma acquire_wiring_witness :
  let s := {| name := "build"; script := []; after_script := [];
              image := None; clone_settings := Scenario.unset; size := 2;
              services := ["redis"]; caches := []; artifacts := [] |} in
  let defs := {| def_image := Some {| image_name := "python:3.9" |};
                 def_clone_settings := Scenario.unset;
                 def_services := def_services Scenario.defs;
                 def_caches := def_caches Scenario.defs |} in
  exists cr,
    (run_acquire Scenario.env_ok Scenario.cfg s defs Scenario.st0).1 = Ok cr
    /\ cr_name cr = "proj-step-build"
    /\ cr_data_volume_name cr = "proj-step-build-data"
    /\ cr_mem_limit cr = 2048
    /\ cr_image cr = {| image_name := "python:3.9" |}.
Proof.
  intros s defs.
  destruct (run_acquire Scenario.env_ok Scenario.cfg s defs Scenario.st0)
    as [[cr|e] st1] eqn:Hacq; [|by vm_compute in Hacq].
  exists cr. split; [done|].
  destruct (acquire_wiring Scenario.env_ok Scenario.cfg s defs Scenario.st0
              cr st1 Hacq) as (Hn & Hv & _ & Hm & Hi & _).
  rewrite Hv, Hn, Hm, Hi. by repeat split.
Defined.

(** ** Order of restore, scripts and persist *)



Section Ordering.

Variable E : Env.






End Ordering.


(** ** The pipeline runner *)

(** The fields of a pipeline that [PipelineRunner.run] reads. *)
Record Pipeline := {
  pipeline_name : string;
  pipeline_steps : list Node
}.

Section PipelineRunner.

Variable E : Env.
Variable config : Config.
Variable CloneSettings_default : CloneSettings.

(** [_load_env_files] and [_load_pipeline] read the environment files and
    the pipelines file through [dotenv] and the parser; [run] is given for
    any behaviour of the two. *)
Variable _load_env_files : M unit.
Variable _load_pipeline : M (Pipeline * Pipelines).

(** The identifier chosen in [PipelineRunner.__init__]. *)
Variable _uuid : string.

(** [PipelineRunner.run] *)
Definition PipelineRunner_run : M unit :=
  _load_env_files;;;
  let! loaded := _load_pipeline in
  let '(pipeline, pipelines_definition) := loaded in
  log INFO "Running pipeline: %s" [AStr (pipeline_name pipeline)];;;
  log DEBUG "Pipeline ID: %s" [AStr _uuid];;;
  let! exit_code :=
    _execute_pipeline E config CloneSettings_default pipelines_definition _uuid
      (pipeline_steps pipeline) in
  log INFO "Pipeline '%s' executed in %.3fs."
      [AStr (pipeline_name pipeline); AElapsed];;;
  if truthy exit_code then
    log ERROR "Pipeline '%s': Failed" [AStr (pipeline_name pipeline)]
  else
    log INFO "Pipeline '%s': Successful" [AStr (pipeline_name pipeline)].

End PipelineRunner.

Lemma execute_pipeline_never_zero E config d defs _uuid steps st st' :
  _execute_pipeline E config d defs _uuid steps st <> (Ok (Some 0), st').
Proof.
  revert st. induction steps as [|n steps IH]; intros st Hrun; [done|].
  rewrite execute_pipeline_cons in Hrun. unfold bind in Hrun.
  destruct (pipeline_turn E config d defs _uuid n st) as [[rc|e] st1]; [|done].
  destruct (truthy rc) eqn:Hrc.
  - injection Hrun as -> <-. done.
  - by eapply IH.
Qed.

(** X23.  What [PipelineRunner.run] reports.  Once the environment files
    and the pipeline are loaded, the two opening notices are logged and the
    steps are run under the runner's identifier.  When a step raises, the
    error leaves [run] and neither the duration nor an outcome is logged.
    Otherwise the duration is logged, then "Failed" when the driver
    returned an exit code and "Successful" when it returned nothing; [run]
    itself returns nothing in both cases, so a failed pipeline shows in
    the log only.  When the pipeline cannot be loaded no step is run. *)
Theorem run_reports_the_outcome
    (E : Env) (config : Config) (d : CloneSettings)
    (load_env : M unit) (load_pipeline : M (Pipeline * Pipelines))
    (_uuid : string) (st st1 : State) :
  load_env st = (Ok tt, st1) ->
  (forall p defs st2 r st4,
      load_pipeline st1 = (Ok (p, defs), st2) ->
      let st3 := emit (EvLog DEBUG "Pipeline ID: %s" [AStr _uuid])
                   (emit (EvLog INFO "Running pipeline: %s" [AStr (pipeline_name p)])
                      st2) in
      _execute_pipeline E config d defs _uuid (pipeline_steps p) st3 = (r, st4) ->
      let st5 := emit (EvLog INFO "Pipeline '%s' executed in %.3fs."
                         [AStr (pipeline_name p); AElapsed]) st4 in
      PipelineRunner_run E config d load_env load_pipeline _uuid st
      = match r with
        | Raise e => (Raise e, st4)
        | Ok None =>
            (Ok tt, emit (EvLog INFO "Pipeline '%s': Successful"
                            [AStr (pipeline_name p)]) st5)
        | Ok (Some c) =>
            (Ok tt, emit (EvLog ERROR "Pipeline '%s': Failed"
                            [AStr (pipeline_name p)]) st5)
        end)
  /\ (forall e st2,
      load_pipeline st1 = (Raise e, st2) ->
      PipelineRunner_run E config d load_env load_pipeline _uuid st = (Raise e, st2)).
Proof.
  intros Henv. split.
  - intros p defs st2 r st4 Hload st3 Hrun st5.
    unfold PipelineRunner_run. unfold bind at 1. rewrite Henv.
    unfold bind at 1. rewrite Hload.
    unfold bind at 1, log at 1. unfold bind at 1, log at 1.
    fold st3. unfold bind at 1. rewrite Hrun.
    destruct r as [[c|]|e]; [| |done].
    + assert (c <> 0).
      { intros ->. by apply execute_pipeline_never_zero in Hrun. }
      unfold bind, log. simpl. by destruct (Z.eqb_spec c 0).
    + reflexivity.
  - intros e st2 Hload.
    unfold PipelineRunner_run. unfold bind at 1. rewrite Henv.
    unfold bind at 1. by rewrite Hload.
Qed.

Lemma run_reports_the_outcome_witness :
  let p := {| pipeline_name := "default";
              pipeline_steps := [StepNode (Scenario.mk_step "A" 0);
                                 StepNode (Scenario.mk_step "B" 5)] |} in
  let out := PipelineRunner_run Scenario.env_ok Scenario.cfg
               spec_CloneSettings_default (ret tt) (ret (p, Scenario.defs))
               "run-1" Scenario.st0 in
  out.1 = Ok tt
  /\ last (trace out.2) = Some (EvLog ERROR "Pipeline '%s': Failed" [AStr "default"]).
Proof.
  intros p out.
  assert (Hrun : (_execute_pipeline Scenario.env_ok Scenario.cfg
                    spec_CloneSettings_default Scenario.defs "run-1"
                    (pipeline_steps p)
                    (emit (EvLog DEBUG "Pipeline ID: %s" [AStr "run-1"])
                       (emit (EvLog INFO "Running pipeline: %s"
                                [AStr (pipeline_name p)]) Scenario.st0))).1
                 = Ok (Some 5)) by (vm_compute; reflexivity).
  pose proof (proj1 (run_reports_the_outcome Scenario.env_ok Scenario.cfg
                       spec_CloneSettings_default (ret tt) (ret (p, Scenario.defs))
                       "run-1" Scenario.st0 Scenario.st0 eq_refl)
                p Scenario.defs Scenario.st0 _ _ eq_refl (run_result _ _ Hrun)) as H.
  unfold out. rewrite H. split; [reflexivity|].
  unfold emit at 1. cbn [trace]. apply last_snoc.
Defined.
